(** * Bank-statement reconciliation: a shallow embedding of [main.py]

    The development follows the source file top to bottom:
    - Python values the code relies on (text, [float], exceptions);
    - [safe_float], the money parser;
    - the label patterns handed to [re.search];
    - the analysis result delivered by the document service
      (key-value pairs and tables of cells);
    - [analyze_bank_statement]: the three balance passes, the defaults
      with their warnings, and the transaction extraction;
    - [process_folder]: the reconciliation of every analysed statement.

    Text is modelled as ASCII [string]; Python integers as [Z]; Python
    floats as the primitive binary64 [float]. *)

From Stdlib Require Import ZArith List String Ascii Bool Lia.
From Stdlib Require Import Floats.
Import ListNotations.

Local Open Scope string_scope.
Local Open Scope list_scope.
Local Open Scope Z_scope.

(** ** Exceptions and fallible results *)

Inductive exn : Type :=
| ValueError
| AttributeError
| ServiceError.

Inductive result (A : Type) : Type :=
| Ok (a : A)
| Raise (e : exn).

Arguments Ok {A} a.
Arguments Raise {A} e.

Definition bind {A B : Type} (r : result A) (k : A -> result B) : result B :=
  match r with
  | Ok a => k a
  | Raise e => Raise e
  end.

Notation "x <- r ;; k" := (bind r (fun x => k))
  (at level 61, r at next level, right associativity).

(** [for x in xs: body], where the body may raise. *)
Fixpoint for_each {A S : Type} (body : S -> A -> result S) (xs : list A) (s : S)
  : result S :=
  match xs with
  | [] => Ok s
  | x :: rest => s' <- body s x ;; for_each body rest s'
  end.

(** ** Text *)

Module Text.

Definition code (c : ascii) : N := N_of_ascii c.

Definition between (lo hi c : ascii) : bool :=
  (code lo <=? code c)%N && (code c <=? code hi)%N.

Definition is_digit (c : ascii) : bool := between "0" "9" c.

Definition is_upper (c : ascii) : bool := between "A" "Z" c.

Definition is_lower (c : ascii) : bool := between "a" "z" c.

(** A word character of [\w] and [\b]. *)
Definition is_word (c : ascii) : bool :=
  is_digit c || is_upper c || is_lower c || Ascii.eqb c "_".

(** The characters [float] skips around a number: space, tab, newline,
    vertical tab, form feed, carriage return. *)
Definition is_space (c : ascii) : bool :=
  Ascii.eqb c " " || ((9 <=? code c)%N && (code c <=? 13)%N).

Definition lower_char (c : ascii) : ascii :=
  if is_upper c then ascii_of_N (code c + 32) else c.

(** [s.lower()] *)
Fixpoint lower (s : string) : string :=
  match s with
  | EmptyString => EmptyString
  | String c rest => String (lower_char c) (lower rest)
  end.

(** [s.replace(c, "")] for a one-character [c]. *)
Fixpoint remove (c : ascii) (s : string) : string :=
  match s with
  | EmptyString => EmptyString
  | String d rest => if Ascii.eqb d c then remove c rest else String d (remove c rest)
  end.

(** [s.endswith(suffix)] *)
Definition endswith (s suffix : string) : bool :=
  let n := String.length s in
  let k := String.length suffix in
  (k <=? n)%nat && String.eqb (substring (n - k) k s) suffix.

End Text.

(** ** The builtin [float(text)]

    [float] accepts, between optional blanks, a signed decimal numeral
    with an optional fraction and exponent, or one of [inf], [infinity],
    [nan] in any letter case; single underscores may separate digits.
    The numeral is rounded to the nearest binary64, ties to even.
    Everything else raises [ValueError]. *)

Module PyFloat.

Import Text.
Local Open Scope list_scope.
Local Open Scope Z_scope.

Definition chars : Type := list ascii.

(** Underscores may only stand between two digits; they are dropped. *)
Fixpoint drop_underscores (prev : option ascii) (s : chars) : option chars :=
  match s with
  | [] =>
      match prev with
      | Some p => if Ascii.eqb p "_" then None else Some []
      | None => Some []
      end
  | c :: rest =>
      if Ascii.eqb c "_" then
        match prev with
        | Some p => if is_digit p then drop_underscores (Some c) rest else None
        | None => None
        end
      else
        let after_underscore :=
          match prev with
          | Some p => Ascii.eqb p "_"
          | None => false
          end in
        if after_underscore && negb (is_digit c) then None
        else option_map (cons c) (drop_underscores (Some c) rest)
  end.

Fixpoint lstrip (s : chars) : chars :=
  match s with
  | c :: rest => if is_space c then lstrip rest else s
  | [] => []
  end.

Definition strip (s : chars) : chars := rev (lstrip (rev (lstrip s))).

Fixpoint span_digits (s : chars) : chars * chars :=
  match s with
  | c :: rest =>
      if is_digit c then let (ds, tl) := span_digits rest in (c :: ds, tl)
      else ([], s)
  | [] => ([], [])
  end.

Definition digit_value (c : ascii) : Z := Z.of_N (code c) - 48.

Definition digits_value (ds : chars) : Z :=
  fold_left (fun acc d => 10 * acc + digit_value d) ds 0.

Definition split_sign (s : chars) : bool * chars :=
  match s with
  | c :: rest =>
      if Ascii.eqb c "-" then (true, rest)
      else if Ascii.eqb c "+" then (false, rest)
      else (false, s)
  | [] => (false, [])
  end.

(** A numeral, read as [negative], [mantissa] and decimal exponent:
    the value is [mantissa * 10 ^ exponent]. *)
Record numeral : Type := {
  negative : bool;
  mantissa : Z;
  exponent : Z
}.

(** A numeral of more than [MAX_DIGITS] digits is refused; an exponent
    beyond [MAX_ABS_EXP] is read as [MAX_ABS_EXP], which already gives
    infinity or zero. *)
Definition MAX_DIGITS : Z := 1000000000.

Definition MAX_ABS_EXP : Z := 1100000000.

Definition parse_exponent (s : chars) : option Z :=
  match s with
  | [] => Some 0
  | c :: rest =>
      if Ascii.eqb c "e" || Ascii.eqb c "E" then
        let (neg, body) := split_sign rest in
        let (ds, tl) := span_digits body in
        match ds, tl with
        | _ :: _, [] =>
            let a := Z.min (digits_value ds) MAX_ABS_EXP in
            Some (if neg then - a else a)
        | _, _ => None
        end
      else None
  end.

Definition parse_numeral (s : chars) : option numeral :=
  let (neg, body) := split_sign s in
  let (ip, after_int) := span_digits body in
  let (fp, after_frac) :=
    match after_int with
    | c :: rest => if Ascii.eqb c "." then span_digits rest else ([], after_int)
    | [] => ([], [])
    end in
  match ip ++ fp with
  | [] => None
  | _ :: _ =>
      if (MAX_DIGITS <? Z.of_nat (List.length (ip ++ fp))) then None
      else
        match parse_exponent after_frac with
        | Some e =>
            Some {| negative := neg;
                    mantissa := digits_value (ip ++ fp);
                    exponent := e - Z.of_nat (List.length fp) |}
        | None => None
        end
  end.

Definition lower_chars (s : chars) : chars := map lower_char s.

Definition chars_eqb (a b : chars) : bool :=
  String.eqb (string_of_list_ascii a) (string_of_list_ascii b).

Definition parse_inf_or_nan (s : chars) : option float :=
  let (neg, body) := split_sign s in
  let w := lower_chars body in
  if chars_eqb w (list_ascii_of_string "inf")
     || chars_eqb w (list_ascii_of_string "infinity")
  then Some (if neg then neg_infinity else infinity)
  else if chars_eqb w (list_ascii_of_string "nan") then Some nan
  else None.

(** Number of decimal digits of a non-negative integer. *)
Fixpoint decimal_digits_fuel (fuel : nat) (m : Z) : Z :=
  match fuel with
  | O => 0
  | S k => if m <=? 0 then 0 else 1 + decimal_digits_fuel k (m / 10)
  end.

Definition decimal_digits (m : Z) : Z :=
  decimal_digits_fuel (S (Z.to_nat (Z.log2 m))) m.

(** The binary64 nearest to [m * 10 ^ e] for [m > 0], ties to even.
    A value of more than 310 decimal digits overflows to infinity, one
    below [10 ^ -330] rounds to zero; in between, an integer is rounded
    as it is, and a quotient [m / 10 ^ -e] is rounded from its first 64
    bits or more together with the position of the remainder. *)
Definition nearest_binary64 (m e : Z) : float :=
  let magnitude := decimal_digits m + e in
  if 310 <? magnitude then infinity
  else if magnitude <? -330 then zero
  else if 0 <=? e then
    SF2Prim (binary_normalize prec emax (m * 10 ^ e) 0 false)
  else
    let d := 10 ^ (- e) in
    let s := Z.max 0 (Z.log2 d - Z.log2 m + 64) in
    let (q, r) := Z.div_eucl (Z.shiftl m s) d in
    SF2Prim (binary_round_aux prec emax false q (- s) (new_location d r)).

Definition numeral_value (n : numeral) : float :=
  let magnitude :=
    if mantissa n =? 0 then zero else nearest_binary64 (mantissa n) (exponent n) in
  if negative n then (- magnitude)%float else magnitude.

Definition of_chars (s : chars) : result float :=
  match drop_underscores None s with
  | None => Raise ValueError
  | Some s1 =>
      let body := strip s1 in
      match parse_numeral body with
      | Some n => Ok (numeral_value n)
      | None =>
          match parse_inf_or_nan body with
          | Some x => Ok x
          | None => Raise ValueError
          end
      end
  end.

(** [float(s)] *)
Definition float (s : string) : result PrimFloat.float :=
  of_chars (list_ascii_of_string s).

End PyFloat.

(** ** [safe_float] *)

(** What a caller may hand to [safe_float]: text, or [None]. *)
Inductive pyval : Type :=
| PyNone
| PyStr (s : string).

(** [float(value.replace(",", "").replace("$", ""))]: [None] has no
    [replace], which raises [AttributeError]. *)
Definition strip_and_convert (value : pyval) : result float :=
  match value with
  | PyStr s => PyFloat.float (Text.remove "$" (Text.remove "," s))
  | PyNone => Raise AttributeError
  end.

(** [try: return ... except ValueError: return 0.0] *)
Definition safe_float (value : pyval) : result float :=
  match strip_and_convert value with
  | Ok x => Ok x
  | Raise ValueError => Ok 0%float
  | Raise e => Raise e
  end.

(** [x != 0.0] and [x > 0] on floats. *)
Definition nonzero (x : float) : bool := negb (PrimFloat.eqb x 0).

Definition above_zero (x : float) : bool := PrimFloat.ltb 0 x.

(** ** The label patterns

    [\b(w1|w2|...)\b.*\b(balance|bal)\b], as [re.search] decides it:
    some first word is found between word boundaries, and a second word
    between word boundaries follows it on the same line. *)

Module Re.

Import Text.
Local Open Scope list_scope.

Definition chars : Type := list ascii.

Definition newline : ascii := ascii_of_N 10.

Definition word_opt (c : option ascii) : bool :=
  match c with
  | Some a => is_word a
  | None => false
  end.

(** [\b] between two neighbouring positions. *)
Definition boundary (before after : option ascii) : bool :=
  xorb (word_opt before) (word_opt after).

Fixpoint strip_prefix (w s : chars) : option chars :=
  match w, s with
  | [], _ => Some s
  | a :: w', b :: s' => if Ascii.eqb a b then strip_prefix w' s' else None
  | _ :: _, [] => None
  end.

Definition last_char (prev : option ascii) (w : chars) : option ascii :=
  fold_left (fun _ c => Some c) w prev.

(** [\bw\b] at the head of [s], [prev] being the character before it;
    gives what follows the word. *)
Definition word_at (prev : option ascii) (w s : chars) : option chars :=
  match strip_prefix w s with
  | Some rest =>
      if boundary prev (hd_error s) && boundary (last_char prev w) (hd_error rest)
      then Some rest else None
  | None => None
  end.

Definition is_some {A : Type} (o : option A) : bool :=
  match o with
  | Some _ => true
  | None => false
  end.

(** [.*\b(s1|s2|...)\b] from the head of [s]: [.] does not cross a newline. *)
Fixpoint tail_search (seconds : list chars) (prev : option ascii) (s : chars) : bool :=
  existsb (fun w => is_some (word_at prev w s)) seconds
  || match s with
     | c :: rest =>
         if Ascii.eqb c newline then false else tail_search seconds (Some c) rest
     | [] => false
     end.

Fixpoint search_from (firsts seconds : list chars) (prev : option ascii) (s : chars)
  : bool :=
  existsb (fun w =>
             match word_at prev w s with
             | Some rest => tail_search seconds (last_char prev w) rest
             | None => false
             end) firsts
  || match s with
     | c :: rest => search_from firsts seconds (Some c) rest
     | [] => false
     end.

(** [re.search(pattern, s)] tested for a match. *)
Definition search (firsts seconds : list string) (s : string) : bool :=
  search_from (map list_ascii_of_string firsts) (map list_ascii_of_string seconds)
    None (list_ascii_of_string s).

End Re.

Definition starting_label (text : string) : bool :=
  Re.search ["starting"; "beginning"; "previous"; "opening"; "prior"; "initial"]
            ["balance"; "bal"] text.

Definition ending_label (text : string) : bool :=
  Re.search ["ending"; "current"; "closing"; "new"; "final"]
            ["balance"; "bal"] text.

(** ** The analysis result handed over by the document service *)

Record DocumentTableCell : Type := {
  row_index : Z;
  column_index : Z;
  content : string
}.

Record DocumentTable : Type := {
  cells : list DocumentTableCell
}.

Record DocumentKeyValueElement : Type := {
  element_content : string
}.

(** Either side of a pair may be [None]. *)
Record DocumentKeyValuePair : Type := {
  key : option DocumentKeyValueElement;
  value : option DocumentKeyValueElement
}.

Record AnalyzeResult : Type := {
  key_value_pairs : list DocumentKeyValuePair;
  tables : list DocumentTable
}.

(** ** [analyze_bank_statement] *)

(** The two local variables [starting_balance] and [ending_balance];
    [None] until a pass assigns them. *)
Record balances : Type := {
  starting_balance : option float;
  ending_balance : option float
}.

Definition set_starting (b : balances) (x : float) : balances :=
  {| starting_balance := Some x; ending_balance := ending_balance b |}.

Definition set_ending (b : balances) (x : float) : balances :=
  {| starting_balance := starting_balance b; ending_balance := Some x |}.

Definition is_none {A : Type} (o : option A) : bool :=
  match o with
  | None => true
  | Some _ => false
  end.

Inductive direction : Type :=
| Credit
| Debit.

Record transaction : Type := {
  Date : string;
  Description : string;
  Amount : float;
  Direction : direction
}.

Record statement_data : Type := {
  data_starting_balance : float;
  data_ending_balance : float;
  data_transactions : list transaction
}.

(** *** First pass: key-value pairs *)

Definition key_text (kv_pair : DocumentKeyValuePair) : string :=
  match key kv_pair with
  | Some k => Text.lower (element_content k)
  | None => ""
  end.

Definition value_text (kv_pair : DocumentKeyValuePair) : string :=
  match value kv_pair with
  | Some v => element_content v
  | None => ""
  end.

Definition key_value_step (b : balances) (kv_pair : DocumentKeyValuePair)
  : result balances :=
  let key := key_text kv_pair in
  let value := value_text kv_pair in
  b1 <- (if starting_label key
         then x <- safe_float (PyStr value) ;; Ok (set_starting b x)
         else Ok b) ;;
  if ending_label key
  then x <- safe_float (PyStr value) ;; Ok (set_ending b1 x)
  else Ok b1.

Definition key_value_pass (r : AnalyzeResult) (b : balances) : result balances :=
  for_each key_value_step (key_value_pairs r) b.

(** *** Second pass: a label cell and its horizontal neighbours *)

Definition is_adjacent (cell adjacent_cell : DocumentTableCell) : bool :=
  (row_index adjacent_cell =? row_index cell)
  && ((column_index adjacent_cell =? column_index cell + 1)
      || (column_index adjacent_cell =? column_index cell - 1)).

(** The inner [for adjacent_cell in table.cells] with its [break]:
    the value assigned, if any. *)
Fixpoint scan_adjacent (cell : DocumentTableCell) (candidates : list DocumentTableCell)
  : result (option float) :=
  match candidates with
  | [] => Ok None
  | adjacent_cell :: rest =>
      if is_adjacent cell adjacent_cell then
        potential_value <- safe_float (PyStr (content adjacent_cell)) ;;
        if nonzero potential_value then Ok (Some potential_value)
        else scan_adjacent cell rest
      else scan_adjacent cell rest
  end.

Definition adjacency_step (table : DocumentTable) (b : balances)
  (cell : DocumentTableCell) : result balances :=
  let cell_text := Text.lower (content cell) in
  b1 <- (if is_none (starting_balance b) && starting_label cell_text then
           found <- scan_adjacent cell (cells table) ;;
           Ok (match found with
               | Some x => set_starting b x
               | None => b
               end)
         else Ok b) ;;
  if is_none (ending_balance b1) && ending_label cell_text then
    found <- scan_adjacent cell (cells table) ;;
    Ok (match found with
        | Some x => set_ending b1 x
        | None => b1
        end)
  else Ok b1.

Definition adjacency_table (b : balances) (table : DocumentTable) : result balances :=
  for_each (adjacency_step table) (cells table) b.

Definition adjacency_pass (r : AnalyzeResult) (b : balances) : result balances :=
  if is_none (starting_balance b) || is_none (ending_balance b)
  then for_each adjacency_table (tables r) b
  else Ok b.

(** *** Third pass: first row and last row *)

(** [for cell in row_cells] with its [break]: the value assigned, if any. *)
Fixpoint first_nonzero (row_cells : list DocumentTableCell) : result (option float) :=
  match row_cells with
  | [] => Ok None
  | cell :: rest =>
      potential_value <- safe_float (PyStr (content cell)) ;;
      if nonzero potential_value then Ok (Some potential_value)
      else first_nonzero rest
  end.

(** [len(xs) > 0] *)
Definition nonempty {A : Type} (xs : list A) : bool :=
  0 <? Z.of_nat (List.length xs).

(** [max(xs)]: raises [ValueError] on an empty sequence. *)
Definition py_max (xs : list Z) : result Z :=
  match xs with
  | [] => Raise ValueError
  | x :: rest => Ok (fold_left Z.max rest x)
  end.

Definition in_row (r : Z) (cell : DocumentTableCell) : bool :=
  row_index cell =? r.

Definition first_row_step (b : balances) (table : DocumentTable) : result balances :=
  if nonempty (cells table) then
    let first_row_cells := filter (in_row 0) (cells table) in
    found <- first_nonzero first_row_cells ;;
    Ok (match found with
        | Some x => set_starting b x
        | None => b
        end)
  else Ok b.

Definition last_row_step (b : balances) (table : DocumentTable) : result balances :=
  if nonempty (cells table) then
    max_row <- py_max (map row_index (cells table)) ;;
    let last_row_cells := filter (in_row max_row) (cells table) in
    found <- first_nonzero last_row_cells ;;
    Ok (match found with
        | Some x => set_ending b x
        | None => b
        end)
  else Ok b.

Definition first_row_pass (r : AnalyzeResult) (b : balances) : result balances :=
  if is_none (starting_balance b) then for_each first_row_step (tables r) b else Ok b.

Definition last_row_pass (r : AnalyzeResult) (b : balances) : result balances :=
  if is_none (ending_balance b) then for_each last_row_step (tables r) b else Ok b.

(** The three passes in order, from both variables unset. *)
Definition find_balances (r : AnalyzeResult) : result balances :=
  b1 <- key_value_pass r {| starting_balance := None; ending_balance := None |} ;;
  b2 <- adjacency_pass r b1 ;;
  b3 <- first_row_pass r b2 ;;
  last_row_pass r b3.

(** *** Defaults and their warnings *)

Definition starting_warning (file_path : string) : string :=
  ("Warning: Could not find starting balance in " ++ file_path
   ++ ". Using 0.0 as default.")%string.

Definition ending_warning (file_path : string) : string :=
  ("Warning: Could not find ending balance in " ++ file_path
   ++ ". Using 0.0 as default.")%string.

(** What is printed, and the two balances as floats. *)
Definition apply_defaults (file_path : string) (b : balances)
  : list string * (float * float) :=
  let (out1, starting) :=
    match starting_balance b with
    | None => ([starting_warning file_path], 0%float)
    | Some x => ([], x)
    end in
  let (out2, ending) :=
    match ending_balance b with
    | None => ([ending_warning file_path], 0%float)
    | Some x => ([], x)
    end in
  (out1 ++ out2, (starting, ending)).

(** *** Transactions *)

Definition transaction_step (table : DocumentTable) (transactions : list transaction)
  (cell : DocumentTableCell) : result (list transaction) :=
  if row_index cell >? 0 then
    let row := map content (filter (in_row (row_index cell)) (cells table)) in
    match row with
    | row0 :: row1 :: row2 :: _ =>   (* len(row) >= 3 *)
        amount <- safe_float (PyStr row2) ;;
        compared <- safe_float (PyStr row2) ;;
        Ok (transactions ++
            [{| Date := row0;
                Description := row1;
                Amount := amount;
                Direction := if above_zero compared then Credit else Debit |}])
    | _ => Ok transactions
    end
  else Ok transactions.

Definition transaction_table (transactions : list transaction) (table : DocumentTable)
  : result (list transaction) :=
  for_each (transaction_step table) (cells table) transactions.

Definition extract_transactions (r : AnalyzeResult) : result (list transaction) :=
  for_each transaction_table (tables r) [].

(** *** The whole function

    [client] stands for the call to the document service on the opened
    file: it delivers an [AnalyzeResult] or raises.  The function gives
    the lines it prints and the dictionary it returns. *)

Definition exn_str (e : exn) : string :=
  match e with
  | ValueError => "ValueError"
  | AttributeError => "AttributeError"
  | ServiceError => "ServiceError"
  end.

Definition failed_data : statement_data :=
  {| data_starting_balance := 0%float;
     data_ending_balance := 0%float;
     data_transactions := [] |}.

Definition error_line (file_path : string) (e : exn) : string :=
  ("Error processing " ++ file_path ++ ": " ++ exn_str e)%string.

(** The body of the [try] once the service has answered. *)
Definition analyze_result (file_path : string) (r : AnalyzeResult)
  : list string * result statement_data :=
  match find_balances r with
  | Raise e => ([], Raise e)
  | Ok b =>
      let '(warnings, (starting, ending)) := apply_defaults file_path b in
      (warnings,
       transactions <- extract_transactions r ;;
       Ok {| data_starting_balance := starting;
             data_ending_balance := ending;
             data_transactions := transactions |})
  end.

Definition analyze_bank_statement (client : string -> result AnalyzeResult)
  (file_path : string) : list string * statement_data :=
  let banner := ("Analyzing document: " ++ file_path)%string in
  let (printed, outcome) :=
    match client file_path with
    | Raise e => ([], Raise e)
    | Ok r => analyze_result file_path r
    end in
  match outcome with
  | Ok data => (banner :: printed, data)
  | Raise e => ((banner :: printed) ++ [error_line file_path e], failed_data)
  end.

(** ** [process_folder] *)

(** [sum(xs)] over floats: the items are added from left to right,
    starting at [0]. *)
Definition py_sum (xs : list float) : float :=
  fold_left PrimFloat.add xs 0%float.

Definition signed_amount (t : transaction) : float :=
  match Direction t with
  | Credit => Amount t
  | Debit => (- Amount t)%float
  end.

(** The tolerance of [abs(variance) > 0.01], the binary64 nearest to 0.01. *)
#[warnings="-inexact-float"] Definition tolerance : float := 0.01%float.

Record variance_entry : Type := {
  variance_file : string;
  variance_value : float
}.

Record discrepancy : Type := {
  d_file : string;
  d_starting_balance : float;
  d_total_transactions : float;
  d_expected_ending : float;
  d_actual_ending : float;
  d_variance : float
}.

Record summary_row : Type := {
  row_file : string;
  row_starting_balance : float;
  row_ending_balance : float;
  row_transactions : Z
}.

(** The four accumulators of the loop, and what has been printed. *)
Record folder_state : Type := {
  all_data : list summary_row;
  output_json_data : list (string * statement_data);
  discrepancies : list discrepancy;
  variances : list variance_entry;
  printed : list string
}.

(** [d[k] = v] on a dictionary kept in insertion order. *)
Fixpoint dict_set {V : Type} (d : list (string * V)) (k : string) (v : V)
  : list (string * V) :=
  match d with
  | [] => [(k, v)]
  | (k', v') :: rest =>
      if String.eqb k' k then (k', v) :: rest else (k', v') :: dict_set rest k v
  end.

(** [os.path.join(folder, name)] for a name that is not absolute. *)
Definition path_join (folder name : string) : string :=
  if String.eqb folder "" || Text.endswith folder "/" then (folder ++ name)%string
  else (folder ++ "/" ++ name)%string.

Definition process_file (client : string -> result AnalyzeResult)
  (input_folder : string) (st : folder_state) (file_name : string) : folder_state :=
  if Text.endswith file_name ".pdf" then
    let file_path := path_join input_folder file_name in
    let (lines, data) := analyze_bank_statement client file_path in
    let total_transactions := py_sum (map signed_amount (data_transactions data)) in
    let expected_ending := (data_starting_balance data + total_transactions)%float in
    let actual_ending := data_ending_balance data in
    let variance := (actual_ending - expected_ending)%float in
    {| all_data :=
         all_data st ++
         [{| row_file := file_name;
             row_starting_balance := data_starting_balance data;
             row_ending_balance := data_ending_balance data;
             row_transactions := Z.of_nat (List.length (data_transactions data)) |}];
       output_json_data := dict_set (output_json_data st) file_name data;
       discrepancies :=
         if PrimFloat.ltb tolerance (abs variance) then
           discrepancies st ++
           [{| d_file := file_name;
               d_starting_balance := data_starting_balance data;
               d_total_transactions := total_transactions;
               d_expected_ending := expected_ending;
               d_actual_ending := actual_ending;
               d_variance := variance |}]
         else discrepancies st;
       variances :=
         variances st ++ [{| variance_file := file_name; variance_value := variance |}];
       printed :=
         printed st ++ ("Processing file: " ++ file_name)%string :: lines |}
  else st.

Definition empty_state : folder_state :=
  {| all_data := []; output_json_data := []; discrepancies := [];
     variances := []; printed := [] |}.

(** [listing] is what [os.listdir(input_folder)] returns. *)
Definition process_folder (client : string -> result AnalyzeResult)
  (listing : list string) (input_folder : string) : folder_state :=
  fold_left (process_file client input_folder) listing empty_state.

(** ** Vocabulary of the statements *)

(** The float [safe_float] yields on a text. *)
Definition money (s : string) : float :=
  match PyFloat.float (Text.remove "$" (Text.remove "," s)) with
  | Ok x => x
  | Raise _ => 0%float
  end.

Definition cell_money (c : DocumentTableCell) : float := money (content c).

(** The two balance fields, their label pattern, variable and warning. *)
Inductive field : Type :=
| Starting
| Ending.

Definition label (f : field) : string -> bool :=
  match f with
  | Starting => starting_label
  | Ending => ending_label
  end.

Definition balance_of (f : field) (b : balances) : option float :=
  match f with
  | Starting => starting_balance b
  | Ending => ending_balance b
  end.

Definition data_balance (f : field) (d : statement_data) : float :=
  match f with
  | Starting => data_starting_balance d
  | Ending => data_ending_balance d
  end.

Definition warning (f : field) (file_path : string) : string :=
  match f with
  | Starting => starting_warning file_path
  | Ending => ending_warning file_path
  end.

Definition unset : balances :=
  {| starting_balance := None; ending_balance := None |}.

Definition or_else {A : Type} (o fallback : option A) : option A :=
  match o with
  | Some x => Some x
  | None => fallback
  end.

(** The last pair, in iteration order, whose key carries the label. *)
Definition last_matching (f : field) (pairs : list DocumentKeyValuePair)
  : option DocumentKeyValuePair :=
  find (fun p => label f (key_text p)) (rev pairs).

(** What one pair does to the two variables in the first pass. *)
Definition key_value_update (b : balances) (p : DocumentKeyValuePair) : balances :=
  let b1 := if starting_label (key_text p)
            then set_starting b (money (value_text p)) else b in
  if ending_label (key_text p) then set_ending b1 (money (value_text p)) else b1.

(** The non-zero values next to a label cell, in cell order. *)
Definition adjacent_values (table : DocumentTable) (c : DocumentTableCell) : list float :=
  filter nonzero (map cell_money (filter (is_adjacent c) (cells table))).

Definition cell_candidates (f : field) (table : DocumentTable) (c : DocumentTableCell)
  : list float :=
  if label f (Text.lower (content c)) then adjacent_values table c else [].

(** Every non-zero value next to a label cell of the field, in the order
    the second pass meets them: table by table, label cell by label cell,
    neighbour by neighbour. *)
Definition adjacency_candidates (f : field) (ts : list DocumentTable) : list float :=
  flat_map (fun t => flat_map (cell_candidates f t) (cells t)) ts.

(** The first non-zero value of row [r] of a table. *)
Definition row_value (r : Z) (table : DocumentTable) : option float :=
  find nonzero (map cell_money (filter (in_row r) (cells table))).

Definition max_row_of (table : DocumentTable) : Z :=
  match map row_index (cells table) with
  | [] => 0
  | x :: rest => fold_left Z.max rest x
  end.

Definition first_row_value (table : DocumentTable) : option float :=
  row_value 0 table.

Definition last_row_value (table : DocumentTable) : option float :=
  row_value (max_row_of table) table.

(** The value of the last table that has one. *)
Definition last_some (vs : list (option float)) : option float :=
  fold_left (fun acc v => or_else v acc) vs None.

(** What one table does to the two variables in the third pass. *)
Definition first_row_update (b : balances) (table : DocumentTable) : balances :=
  match first_row_value table with
  | Some x => set_starting b x
  | None => b
  end.

Definition last_row_update (b : balances) (table : DocumentTable) : balances :=
  match last_row_value table with
  | Some x => set_ending b x
  | None => b
  end.

Definition fallback_value (f : field) (table : DocumentTable) : option float :=
  match f with
  | Starting => first_row_value table
  | Ending => last_row_value table
  end.

(** The balance each pass proposes for a field, and the outcome of the
    cascade: key-value pairs before label cells before row positions. *)
Definition from_pairs (f : field) (r : AnalyzeResult) : option float :=
  option_map (fun p => money (value_text p)) (last_matching f (key_value_pairs r)).

Definition from_labels (f : field) (r : AnalyzeResult) : option float :=
  hd_error (adjacency_candidates f (tables r)).

Definition from_rows (f : field) (r : AnalyzeResult) : option float :=
  last_some (map (fallback_value f) (tables r)).

Definition resolved (f : field) (r : AnalyzeResult) : option float :=
  or_else (or_else (from_pairs f r) (from_labels f r)) (from_rows f r).

(** The cells of row [r], as the extractor collects them. *)
Definition row_of (table : DocumentTable) (r : Z) : list string :=
  map content (filter (in_row r) (cells table)).

(** The transaction read off a row of at least three cells. *)
Definition transaction_of (row : list string) : transaction :=
  {| Date := nth 0 row "";
     Description := nth 1 row "";
     Amount := money (nth 2 row "");
     Direction := if above_zero (money (nth 2 row "")) then Credit else Debit |}.

(** What one cell contributes to the transactions: the record of its
    row when the cell lies below row 0 and the row has three cells or
    more, nothing otherwise. *)
Definition emitted (table : DocumentTable) (c : DocumentTableCell) : list transaction :=
  if (row_index c >? 0) && (3 <=? Z.of_nat (List.length (row_of table (row_index c))))
  then [transaction_of (row_of table (row_index c))]
  else [].

Definition all_emitted (r : AnalyzeResult) : list transaction :=
  flat_map (fun t => flat_map (emitted t) (cells t)) (tables r).

Definition default_of (o : option float) : float :=
  match o with
  | Some x => x
  | None => 0%float
  end.

Definition warnings_of (file_path : string) (r : AnalyzeResult) : list string :=
  (if is_none (resolved Starting r) then [starting_warning file_path] else [])
  ++ (if is_none (resolved Ending r) then [ending_warning file_path] else []).

(** The reconciliation of one statement, in the words of the report. *)
Module Reconciliation.

Fixpoint net_flow (acc : float) (ts : list transaction) : float :=
  match ts with
  | [] => acc
  | t :: rest =>
      net_flow (match Direction t with
                | Credit => acc + Amount t
                | Debit => acc + - Amount t
                end)%float rest
  end.

Definition total_transactions (d : statement_data) : float :=
  net_flow 0%float (data_transactions d).

Definition expected_ending (d : statement_data) : float :=
  (data_starting_balance d + total_transactions d)%float.

Definition variance (d : statement_data) : float :=
  (data_ending_balance d - expected_ending d)%float.

Definition is_discrepant (d : statement_data) : bool :=
  PrimFloat.ltb tolerance (abs (variance d)).

End Reconciliation.

(** The statement [process_folder] reads for a file name. *)
Definition statement_of (client : string -> result AnalyzeResult)
  (input_folder file_name : string) : statement_data :=
  snd (analyze_bank_statement client (path_join input_folder file_name)).

Definition is_pdf (file_name : string) : bool := Text.endswith file_name ".pdf".

Definition variance_entry_of (client : string -> result AnalyzeResult)
  (input_folder file_name : string) : variance_entry :=
  {| variance_file := file_name;
     variance_value :=
       Reconciliation.variance (statement_of client input_folder file_name) |}.

Definition discrepancy_of (client : string -> result AnalyzeResult)
  (input_folder file_name : string) : discrepancy :=
  let d := statement_of client input_folder file_name in
  {| d_file := file_name;
     d_starting_balance := data_starting_balance d;
     d_total_transactions := Reconciliation.total_transactions d;
     d_expected_ending := Reconciliation.expected_ending d;
     d_actual_ending := data_ending_balance d;
     d_variance := Reconciliation.variance d |}.

(** ** Sample documents *)

Definition mk_cell (r c : Z) (s : string) : DocumentTableCell :=
  {| row_index := r; column_index := c; content := s |}.

Definition mk_pair (k v : string) : DocumentKeyValuePair :=
  {| key := Some {| element_content := k |};
     value := Some {| element_content := v |} |}.

Definition label_only (k : string) : DocumentKeyValuePair :=
  {| key := Some {| element_content := k |}; value := None |}.

(** Two pairs carry a starting label; a table offers other values. *)
Definition two_openings : AnalyzeResult :=
  {| key_value_pairs :=
       [mk_pair "Opening Balance" "100.00"; mk_pair "Previous Balance" "200.00"];
     tables := [] |}.

(** A starting label whose value reads zero, next to tables that would
    offer 500.00 through a label cell and 750.00 through row 0. *)
Definition zero_opening : AnalyzeResult :=
  {| key_value_pairs := [mk_pair "Opening Balance" "0.00"];
     tables :=
       [{| cells := [mk_cell 0 0 "750.00";
                     mk_cell 1 0 "Opening balance"; mk_cell 1 1 "500.00"] |}] |}.

(** A starting label with no value side, and the same tables. *)
Definition bare_opening : AnalyzeResult :=
  {| key_value_pairs := [label_only "Opening Balance"];
     tables := tables zero_opening |}.

(** No pair; a label cell with a zero to its left and 500.00 to its right. *)
Definition labelled_table : AnalyzeResult :=
  {| key_value_pairs := [];
     tables :=
       [{| cells := [mk_cell 0 0 "Item"; mk_cell 0 1 "Value";
                     mk_cell 1 0 "0.00"; mk_cell 1 1 "Opening balance";
                     mk_cell 1 2 "$500.00"] |}] |}.

(** Two tables, each with one non-zero cell in its only row. *)
Definition two_tables : AnalyzeResult :=
  {| key_value_pairs := [];
     tables := [{| cells := [mk_cell 0 0 "100.00"] |};
                {| cells := [mk_cell 0 0 "200.00"] |}] |}.

(** Nothing to find: no pair, one empty table, one table of words. *)
Definition nothing_found : AnalyzeResult :=
  {| key_value_pairs := [];
     tables := [{| cells := [] |};
                {| cells := [mk_cell 0 0 "Date"; mk_cell 0 1 "Details"] |}] |}.

(** A header row, a row of three cells and a row of two. *)
Definition deposit_table : DocumentTable :=
  {| cells := [mk_cell 0 0 "Date"; mk_cell 0 1 "Desc"; mk_cell 0 2 "Amount";
               mk_cell 1 0 "01/02"; mk_cell 1 1 "Deposit"; mk_cell 1 2 "200.00";
               mk_cell 2 0 "01/03"; mk_cell 2 1 "Fee"] |}.

(** ** The discrepancy report and the variance chart

    What [process_folder] writes to [discrepancy_report.txt], and the
    bars and labels [plot_variance_graph] hands to the plotting
    library.  The CSV and JSON exports and the rendering of the chart
    are left to their libraries. *)

Module Format.

Definition nl : string := String (ascii_of_N 10) "".

Definition digit_char (d : Z) : ascii := ascii_of_N (Z.to_N (48 + d)).

(** The decimal digits of a non-negative integer, most significant first. *)
Fixpoint digits_fuel (fuel : nat) (n : Z) (acc : list ascii) : list ascii :=
  match fuel with
  | O => acc
  | S k =>
      if n <? 10 then digit_char n :: acc
      else digits_fuel k (n / 10) (digit_char (n mod 10) :: acc)
  end.

Definition digits_of (n : Z) : list ascii :=
  digits_fuel (S (Z.to_nat (Z.log2 n))) n [].

(** A comma before every group of three digits, counted from the right;
    the digits come least significant first. *)
Fixpoint group_reversed (seen : nat) (ds : list ascii) : list ascii :=
  match ds with
  | [] => []
  | d :: rest =>
      match seen with
      | 3%nat => ","%char :: d :: group_reversed 1 rest
      | _ => d :: group_reversed (S seen) rest
      end
  end.

Definition group_thousands (ds : list ascii) : list ascii :=
  rev (group_reversed 0 (rev ds)).

(** [m * 2 ^ e] in hundredths, rounded to the nearest integer, ties to even. *)
Definition hundredths (m : positive) (e : Z) : Z :=
  if 0 <=? e then Zpos m * 100 * 2 ^ e
  else
    let d := 2 ^ (- e) in
    let (q, r) := Z.div_eucl (Zpos m * 100) d in
    match 2 * r ?= d with
    | Lt => q
    | Gt => q + 1
    | Eq => if Z.even q then q else q + 1
    end.

(** [f"{x:,.2f}"] *)
Definition money_text (x : float) : string :=
  match Prim2SF x with
  | S754_nan => "nan"
  | S754_infinity s => if s then "-inf" else "inf"
  | S754_zero s => if s then "-0.00" else "0.00"
  | S754_finite s m e =>
      let n := hundredths m e in
      ((if s then "-" else "")
       ++ string_of_list_ascii (group_thousands (digits_of (n / 100)))
       ++ "."
       ++ String (digit_char (n mod 100 / 10)) (String (digit_char (n mod 10)) ""))%string
  end.

End Format.

(** One block of the report, as the seven [report.write] calls build it. *)
Definition discrepancy_block (d : discrepancy) : string :=
  ("File: " ++ d_file d ++ Format.nl
   ++ "Starting Balance: $" ++ Format.money_text (d_starting_balance d) ++ Format.nl
   ++ "Total Transactions: $" ++ Format.money_text (d_total_transactions d) ++ Format.nl
   ++ "Expected Ending Balance: $" ++ Format.money_text (d_expected_ending d) ++ Format.nl
   ++ "Actual Ending Balance: $" ++ Format.money_text (d_actual_ending d) ++ Format.nl
   ++ "Variance: $" ++ Format.money_text (d_variance d) ++ Format.nl
   ++ "------------------------------" ++ Format.nl ++ Format.nl)%string.

Definition report_header : string :=
  ("Bank Statement Discrepancy Report" ++ Format.nl
   ++ "==============================" ++ Format.nl ++ Format.nl)%string.

Definition no_discrepancies_line : string :=
  ("No discrepancies found in any statements." ++ Format.nl)%string.

(** The text of [discrepancy_report.txt]. *)
Definition discrepancy_report (ds : list discrepancy) : string :=
  (report_header
   ++ match ds with
      | [] => no_discrepancies_line
      | _ :: _ => String.concat "" (map discrepancy_block ds)
      end)%string.

(** [s.replace(old, "")] for a non-empty [old]: the occurrences are
    found from left to right and do not overlap; [skip] counts the
    characters of an occurrence still to be dropped. *)
Fixpoint drop_occurrences (old : string) (skip : nat) (s : string) : string :=
  match s with
  | EmptyString => EmptyString
  | String c rest =>
      match skip with
      | S k => drop_occurrences old k rest
      | O =>
          if String.prefix old s
          then drop_occurrences old (String.length old - 1) rest
          else String c (drop_occurrences old 0 rest)
      end
  end.

Definition without_pdf (file : string) : string := drop_occurrences ".pdf" 0 file.

Record bar : Type := {
  bar_label : string;
  bar_height : float;
  bar_color : string
}.

Record bar_text : Type := {
  text_x : Z;
  text_y : float;
  text_string : string;
  text_va : string
}.

#[warnings="-inexact-float"] Definition label_gap : float := 0.1%float.

Definition color_of (variance : float) : string :=
  if PrimFloat.ltb variance 0 then "#ff6b6b" else "#4ecdc4".

Definition bar_of (v : variance_entry) : bar :=
  {| bar_label := without_pdf (variance_file v);
     bar_height := variance_value v;
     bar_color := color_of (variance_value v) |}.

Definition text_of (i : Z) (v : float) : bar_text :=
  {| text_x := i;
     text_y := (v + (if PrimFloat.leb 0 v then label_gap else - label_gap))%float;
     text_string := ("$" ++ Format.money_text v)%string;
     text_va := if PrimFloat.leb 0 v then "bottom" else "top" |}.

(** [for i, v in enumerate(variance_values)] *)
Fixpoint texts_from (i : Z) (variance_values : list float) : list bar_text :=
  match variance_values with
  | [] => []
  | v :: rest => text_of i v :: texts_from (i + 1) rest
  end.

(** The bars with their colours, and the value labels above or below them. *)
Definition plot_variance_graph (variances : list variance_entry)
  : list bar * list bar_text :=
  (map bar_of variances, texts_from 0 (map variance_value variances)).

(** ** Further vocabulary *)

(** [d.get(k)] on a dictionary kept as a list. *)
Fixpoint dict_get {V : Type} (d : list (string * V)) (k : string) : option V :=
  match d with
  | [] => None
  | (k', v) :: rest => if String.eqb k' k then Some v else dict_get rest k
  end.

(** A float that is not below zero: a zero of either sign, a positive
    number, plus infinity, or NaN. *)
Definition not_below_zero (x : float) : bool := negb (PrimFloat.ltb x 0).

Definition sf_not_below_zero (x : spec_float) : bool :=
  negb (SFltb x (S754_zero false)).

(** A cell whose visit adds a transaction. *)
Definition counts_as_transaction (table : DocumentTable) (c : DocumentTableCell) : bool :=
  (row_index c >? 0) && (3 <=? Z.of_nat (List.length (row_of table (row_index c)))).

Definition carries_a_label (p : DocumentKeyValuePair) : bool :=
  starting_label (key_text p) || ending_label (key_text p).

Definition summary_of (client : string -> result AnalyzeResult)
  (input_folder file_name : string) : summary_row :=
  let d := statement_of client input_folder file_name in
  {| row_file := file_name;
     row_starting_balance := data_starting_balance d;
     row_ending_balance := data_ending_balance d;
     row_transactions := Z.of_nat (List.length (data_transactions d)) |}.

(** A table whose only row reads a withdrawal of 50.00. *)
Definition withdrawal_statement : AnalyzeResult :=
  {| key_value_pairs := [];
     tables :=
       [{| cells := [mk_cell 1 0 "01/05"; mk_cell 1 1 "Withdrawal";
                     mk_cell 1 2 "-50.00"] |}] |}.

(** A folder in which the service fails on the second of two statements. *)
Definition failing_client (file_path : string) : result AnalyzeResult :=
  if String.eqb file_path "in/bad.pdf" then Raise ServiceError else Ok two_tables.

(** * Properties *)

(** ** Loops whose body cannot raise *)

Lemma for_each_pure {A S : Type} (body : S -> A -> result S) (f : S -> A -> S) :
  (forall s x, body s x = Ok (f s x)) ->
  forall xs s, for_each body xs s = Ok (fold_left f xs s).
Proof.
  intros Hbody xs; induction xs as [|x xs IH]; intros s; simpl; [reflexivity|].
  rewrite Hbody; simpl; apply IH.
Qed.

(** ** The builtins on sample inputs *)

Example float_plain : PyFloat.float "1000.00" = Ok 1000%float.
Proof. reflexivity. Qed.

Example float_fraction : PyFloat.float " -12.5e-1 " = Ok (-1.25)%float.
Proof. reflexivity. Qed.

Example float_rounds_to_nearest :
  PyFloat.float "0.01" = Ok tolerance
  /\ PyFloat.float "9007199254740993" = Ok 9007199254740992%float
  /\ PyFloat.float "1e309" = Ok infinity
  /\ PyFloat.float "1e-400" = Ok 0%float.
Proof. repeat split; reflexivity. Qed.

Example float_words :
  PyFloat.float "nan" = Ok nan /\ PyFloat.float "-Infinity" = Ok neg_infinity.
Proof. split; reflexivity. Qed.

Example float_refuses :
  PyFloat.float "1,000" = Raise ValueError
  /\ PyFloat.float "" = Raise ValueError
  /\ PyFloat.float "." = Raise ValueError
  /\ PyFloat.float "1e" = Raise ValueError
  /\ PyFloat.float "12 34" = Raise ValueError
  /\ PyFloat.float "1__0" = Raise ValueError.
Proof. repeat split; reflexivity. Qed.

Example label_matches :
  starting_label "opening balance" = true
  /\ starting_label "beginning  balance on may 1" = true
  /\ starting_label "prior-bal" = true
  /\ ending_label "new balance:" = true.
Proof. repeat split; reflexivity. Qed.

Example label_needs_word_boundaries :
  starting_label "openingbalance" = false
  /\ starting_label "opening balances" = false
  /\ ending_label "renew balance" = false
  /\ ending_label "new_bal" = false
  /\ ending_label "balance new" = false.
Proof. repeat split; reflexivity. Qed.

(** ** The money parser on text *)

Lemma float_raises_ValueError (s : string) (e : exn) :
  PyFloat.float s = Raise e -> e = ValueError.
Proof.
  unfold PyFloat.float, PyFloat.of_chars.
  destruct (PyFloat.drop_underscores None (list_ascii_of_string s)) as [s1|];
    [|intros H; injection H as <-; reflexivity].
  destruct (PyFloat.parse_numeral (PyFloat.strip s1)); [discriminate|].
  destruct (PyFloat.parse_inf_or_nan (PyFloat.strip s1)); [discriminate|].
  intros H; injection H as <-; reflexivity.
Qed.

Lemma safe_float_text (s : string) : safe_float (PyStr s) = Ok (money s).
Proof.
  unfold safe_float, money, strip_and_convert.
  destruct (PyFloat.float (Text.remove "$" (Text.remove "," s))) as [x|e] eqn:E;
    [reflexivity|].
  apply float_raises_ValueError in E; subst e; reflexivity.
Qed.

Lemma money_parsed (s : string) (x : float) :
  PyFloat.float (Text.remove "$" (Text.remove "," s)) = Ok x -> money s = x.
Proof. unfold money; intros ->; reflexivity. Qed.

Lemma money_failed (s : string) (e : exn) :
  PyFloat.float (Text.remove "$" (Text.remove "," s)) = Raise e -> money s = 0%float.
Proof. unfold money; intros ->; reflexivity. Qed.

Lemma remove_absent (c : ascii) (s : string) :
  ~ In c (list_ascii_of_string (Text.remove c s)).
Proof.
  induction s as [|d s IH]; simpl; [intros []|].
  destruct (Ascii.eqb d c) eqn:E; [exact IH|].
  simpl. intros [H|H]; [|exact (IH H)].
  subst d. rewrite Ascii.eqb_refl in E. discriminate E.
Qed.

Lemma remove_subset (c d : ascii) (s : string) :
  In d (list_ascii_of_string (Text.remove c s)) -> In d (list_ascii_of_string s).
Proof.
  induction s as [|a s IH]; simpl; [intros []|].
  destruct (Ascii.eqb a c); simpl.
  - intros H. right. exact (IH H).
  - intros [H|H]; [left; exact H | right; exact (IH H)].
Qed.

(** C5, at the input where the code leaves the claim and its own
    docstring ("If it fails, return 0.0"): [None] is not text, the call
    of [replace] raises [AttributeError], and the handler, written for
    [ValueError] only, lets it through instead of returning 0.0. *)
Lemma safe_float_none_raises :
  safe_float PyNone = Raise AttributeError /\ safe_float PyNone <> Ok 0%float.
Proof. split; [reflexivity | discriminate]. Qed.

(** On text the parser keeps its docstring: for every text, including
    non-numeric text and the empty string, it removes the commas and the
    dollar signs, returns what [float] reads in the rest, and returns
    exactly 0.0 when [float] refuses it; it never raises. *)
Theorem safe_float_total_on_text (s : string) :
  let stripped := Text.remove "$" (Text.remove "," s) in
  ~ In ","%char (list_ascii_of_string stripped)
  /\ ~ In "$"%char (list_ascii_of_string stripped)
  /\ (forall x, PyFloat.float stripped = Ok x -> safe_float (PyStr s) = Ok x)
  /\ (forall e, PyFloat.float stripped = Raise e -> safe_float (PyStr s) = Ok 0%float)
  /\ exists x, safe_float (PyStr s) = Ok x.
Proof.
  intros stripped. split.
  { intros H. apply remove_subset in H. exact (remove_absent _ _ H). }
  split; [apply remove_absent|].
  split.
  { intros x H. rewrite safe_float_text, (money_parsed s x H). reflexivity. }
  split.
  { intros e H. rewrite safe_float_text, (money_failed s e H). reflexivity. }
  exists (money s). apply safe_float_text.
Qed.

Lemma safe_float_total_on_text_witness :
  safe_float (PyStr "$1,000.00") = Ok 1000%float
  /\ safe_float (PyStr "abc") = Ok 0%float
  /\ safe_float (PyStr "") = Ok 0%float.
Proof.
  split; [|split].
  - destruct (safe_float_total_on_text "$1,000.00") as (_ & _ & Hok & _).
    apply Hok. reflexivity.
  - destruct (safe_float_total_on_text "abc") as (_ & _ & _ & Hfail & _).
    apply (Hfail ValueError). reflexivity.
  - destruct (safe_float_total_on_text "") as (_ & _ & _ & Hfail & _).
    apply (Hfail ValueError). reflexivity.
Defined.

(** ** Small facts on lists and options *)

Lemma or_else_assoc {A : Type} (a b c : option A) :
  or_else (or_else a b) c = or_else a (or_else b c).
Proof. destruct a; reflexivity. Qed.

Lemma or_else_none {A : Type} (a : option A) : or_else a None = a.
Proof. destruct a; reflexivity. Qed.

Lemma hd_error_app {A : Type} (xs ys : list A) :
  hd_error (xs ++ ys) = or_else (hd_error xs) (hd_error ys).
Proof. destruct xs; reflexivity. Qed.

Lemma hd_error_filter {A : Type} (p : A -> bool) (xs : list A) :
  hd_error (filter p xs) = find p xs.
Proof.
  induction xs as [|x xs IH]; simpl; [reflexivity|].
  destruct (p x); [reflexivity | exact IH].
Qed.

Lemma find_skip {A : Type} (p : A -> bool) (xs ys : list A) :
  (forall x, In x xs -> p x = false) -> find p (xs ++ ys) = find p ys.
Proof.
  induction xs as [|x xs IH]; intros H; simpl; [reflexivity|].
  rewrite (H x (or_introl eq_refl)). apply IH. intros y Hy. apply H. right. exact Hy.
Qed.

Lemma find_holds {A : Type} (p : A -> bool) (xs : list A) (x : A) :
  find p xs = Some x -> In x xs /\ p x = true.
Proof.
  induction xs as [|y xs IH]; simpl; [discriminate|].
  destruct (p y) eqn:E.
  - intros H; injection H as <-. split; [left; reflexivity | exact E].
  - intros H. destruct (IH H) as [Hin Hp]. split; [right; exact Hin | exact Hp].
Qed.

Lemma find_exists {A : Type} (p : A -> bool) (xs : list A) (x : A) :
  In x xs -> p x = true -> exists y, find p xs = Some y.
Proof.
  induction xs as [|z xs IH]; simpl; [intros []|].
  intros [->|Hin] Hp.
  - rewrite Hp. eexists; reflexivity.
  - destruct (p z); [eexists; reflexivity | apply IH; assumption].
Qed.

(** ** First pass *)

Lemma key_value_step_ok (b : balances) (p : DocumentKeyValuePair) :
  key_value_step b p = Ok (key_value_update b p).
Proof.
  unfold key_value_step, key_value_update.
  rewrite safe_float_text.
  destruct (starting_label (key_text p)), (ending_label (key_text p)); reflexivity.
Qed.

Lemma key_value_update_field (f : field) (b : balances) (p : DocumentKeyValuePair) :
  balance_of f (key_value_update b p)
  = if label f (key_text p) then Some (money (value_text p)) else balance_of f b.
Proof.
  unfold key_value_update.
  destruct f, (starting_label (key_text p)) eqn:Es, (ending_label (key_text p)) eqn:Ee;
    simpl; rewrite ?Es, ?Ee; reflexivity.
Qed.

Lemma key_value_pass_ok (r : AnalyzeResult) (b : balances) :
  key_value_pass r b = Ok (fold_left key_value_update (key_value_pairs r) b).
Proof. apply for_each_pure. apply key_value_step_ok. Qed.

Lemma key_value_fold_field (f : field) (pairs : list DocumentKeyValuePair) (b : balances) :
  balance_of f (fold_left key_value_update pairs b)
  = or_else (option_map (fun p => money (value_text p)) (last_matching f pairs))
            (balance_of f b).
Proof.
  induction pairs as [|p pairs IH] using rev_ind; [reflexivity|].
  rewrite fold_left_app; simpl.
  rewrite key_value_update_field, IH.
  unfold last_matching. rewrite rev_app_distr; simpl.
  destruct (label f (key_text p)); reflexivity.
Qed.

Lemma last_matching_split (f : field) (before after : list DocumentKeyValuePair)
  (p : DocumentKeyValuePair) :
  label f (key_text p) = true ->
  (forall q, In q after -> label f (key_text q) = false) ->
  last_matching f (before ++ p :: after) = Some p.
Proof.
  intros Hp Hafter. unfold last_matching.
  rewrite rev_app_distr; simpl. rewrite <- app_assoc; simpl.
  rewrite find_skip.
  - simpl. rewrite Hp. reflexivity.
  - intros q Hq. apply Hafter. apply in_rev. exact Hq.
Qed.

Lemma last_matching_exists (f : field) (pairs : list DocumentKeyValuePair)
  (p : DocumentKeyValuePair) :
  In p pairs -> label f (key_text p) = true ->
  exists q, last_matching f pairs = Some q.
Proof.
  intros Hin Hp. unfold last_matching.
  apply find_exists with (x := p); [apply in_rev in Hin; exact Hin | exact Hp].
Qed.

(** C7: in the key-value pass, of several pairs whose keys carry the
    same balance label the last one in iteration order gives the field
    its value, whatever earlier matching pairs had assigned. *)
Theorem key_value_last_match_wins (f : field) (r : AnalyzeResult)
  (before after : list DocumentKeyValuePair) (p : DocumentKeyValuePair) :
  key_value_pairs r = before ++ p :: after ->
  label f (key_text p) = true ->
  (forall q, In q after -> label f (key_text q) = false) ->
  exists b, key_value_pass r unset = Ok b
            /\ balance_of f b = Some (money (value_text p)).
Proof.
  intros Hsplit Hp Hafter.
  exists (fold_left key_value_update (key_value_pairs r) unset).
  split; [apply key_value_pass_ok|].
  rewrite key_value_fold_field, Hsplit, (last_matching_split f before after p Hp Hafter).
  reflexivity.
Qed.

(** ** Second pass *)

Lemma scan_adjacent_ok (c : DocumentTableCell) (cs : list DocumentTableCell) :
  scan_adjacent c cs
  = Ok (find nonzero (map cell_money (filter (is_adjacent c) cs))).
Proof.
  induction cs as [|a cs IH]; simpl; [reflexivity|].
  destruct (is_adjacent c a); simpl; [|exact IH].
  rewrite safe_float_text; simpl. unfold cell_money at 1.
  destruct (nonzero (money (content a))); [reflexivity | exact IH].
Qed.

Lemma for_each_or_else {A : Type} (body : balances -> A -> result balances)
  (cand : field -> A -> list float) :
  (forall b x, exists b', body b x = Ok b'
     /\ forall f, balance_of f b' = or_else (balance_of f b) (hd_error (cand f x))) ->
  forall xs b, exists b', for_each body xs b = Ok b'
     /\ forall f, balance_of f b'
                  = or_else (balance_of f b) (hd_error (flat_map (cand f) xs)).
Proof.
  intros Hbody xs; induction xs as [|x xs IH]; intros b; simpl.
  - exists b; split; [reflexivity|]. intros f; rewrite or_else_none; reflexivity.
  - destruct (Hbody b x) as (b1 & E1 & H1). rewrite E1; simpl.
    destruct (IH b1) as (b2 & E2 & H2). exists b2; split; [exact E2|].
    intros f. rewrite H2, H1, hd_error_app, or_else_assoc. reflexivity.
Qed.

Lemma adjacency_step_ok (t : DocumentTable) (b : balances) (c : DocumentTableCell) :
  exists b', adjacency_step t b c = Ok b'
    /\ forall f, balance_of f b'
                 = or_else (balance_of f b) (hd_error (cell_candidates f t c)).
Proof.
  assert (C : forall f, hd_error (cell_candidates f t c)
                        = if label f (Text.lower (content c))
                          then find nonzero
                                 (map cell_money (filter (is_adjacent c) (cells t)))
                          else None).
  { intros f. unfold cell_candidates, adjacent_values.
    destruct (label f (Text.lower (content c))); [apply hd_error_filter | reflexivity]. }
  unfold adjacency_step. rewrite scan_adjacent_ok.
  destruct b as [sb eb]; simpl.
  destruct (find nonzero (map cell_money (filter (is_adjacent c) (cells t)))) as [v|];
    destruct sb, eb,
      (starting_label (Text.lower (content c))) eqn:Es,
      (ending_label (Text.lower (content c))) eqn:Ee;
    simpl; eexists; (split; [reflexivity|]);
    intros []; rewrite C; simpl; rewrite ?Es, ?Ee; reflexivity.
Qed.

Lemma adjacency_table_ok (b : balances) (t : DocumentTable) :
  exists b', adjacency_table b t = Ok b'
    /\ forall f, balance_of f b'
                 = or_else (balance_of f b)
                     (hd_error (flat_map (cell_candidates f t) (cells t))).
Proof.
  unfold adjacency_table.
  apply (for_each_or_else (adjacency_step t) (fun f => cell_candidates f t)).
  intros b0 c. apply adjacency_step_ok.
Qed.

Lemma adjacency_pass_ok (r : AnalyzeResult) (b : balances) :
  exists b', adjacency_pass r b = Ok b'
    /\ forall f, balance_of f b' = or_else (balance_of f b) (from_labels f r).
Proof.
  unfold adjacency_pass, from_labels, adjacency_candidates.
  destruct (is_none (starting_balance b) || is_none (ending_balance b)) eqn:G.
  - apply (for_each_or_else adjacency_table
             (fun f t => flat_map (cell_candidates f t) (cells t))).
    intros b0 t. apply adjacency_table_ok.
  - exists b; split; [reflexivity|].
    destruct b as [[sb|] [eb|]]; try discriminate G. intros []; reflexivity.
Qed.

(** ** Third pass *)

Lemma first_nonzero_ok (cs : list DocumentTableCell) :
  first_nonzero cs = Ok (find nonzero (map cell_money cs)).
Proof.
  induction cs as [|c cs IH]; simpl; [reflexivity|].
  rewrite safe_float_text; simpl. unfold cell_money at 1.
  destruct (nonzero (money (content c))); [reflexivity | exact IH].
Qed.

Lemma nonempty_cons {A : Type} (x : A) (xs : list A) : nonempty (x :: xs) = true.
Proof. unfold nonempty. apply Z.ltb_lt. simpl List.length. lia. Qed.

Lemma first_row_step_ok (b : balances) (t : DocumentTable) :
  first_row_step b t = Ok (first_row_update b t).
Proof.
  unfold first_row_step, first_row_update, first_row_value, row_value.
  destruct (cells t) as [|c cs]; [reflexivity|].
  rewrite nonempty_cons, first_nonzero_ok. reflexivity.
Qed.

Lemma last_row_step_ok (b : balances) (t : DocumentTable) :
  last_row_step b t = Ok (last_row_update b t).
Proof.
  unfold last_row_step, last_row_update, last_row_value, row_value, max_row_of.
  destruct (cells t) as [|c cs]; [reflexivity|].
  rewrite nonempty_cons. simpl. rewrite first_nonzero_ok. reflexivity.
Qed.

Lemma last_some_snoc (vs : list (option float)) (v : option float) :
  last_some (vs ++ [v]) = or_else v (last_some vs).
Proof. unfold last_some. rewrite fold_left_app. reflexivity. Qed.

Lemma first_row_fold (ts : list DocumentTable) (b : balances) :
  starting_balance (fold_left first_row_update ts b)
  = or_else (last_some (map first_row_value ts)) (starting_balance b)
  /\ ending_balance (fold_left first_row_update ts b) = ending_balance b.
Proof.
  induction ts as [|t ts IH] using rev_ind; [split; reflexivity|].
  rewrite fold_left_app, map_app; simpl. rewrite last_some_snoc.
  destruct IH as [IHs IHe]. unfold first_row_update at 1 3.
  destruct (first_row_value t); simpl; split; assumption || reflexivity.
Qed.

Lemma last_row_fold (ts : list DocumentTable) (b : balances) :
  ending_balance (fold_left last_row_update ts b)
  = or_else (last_some (map last_row_value ts)) (ending_balance b)
  /\ starting_balance (fold_left last_row_update ts b) = starting_balance b.
Proof.
  induction ts as [|t ts IH] using rev_ind; [split; reflexivity|].
  rewrite fold_left_app, map_app; simpl. rewrite last_some_snoc.
  destruct IH as [IHe IHs]. unfold last_row_update at 1 3.
  destruct (last_row_value t); simpl; split; assumption || reflexivity.
Qed.

Lemma first_row_pass_ok (r : AnalyzeResult) (b : balances) :
  exists b', first_row_pass r b = Ok b'
    /\ starting_balance b' = or_else (starting_balance b) (from_rows Starting r)
    /\ ending_balance b' = ending_balance b.
Proof.
  unfold first_row_pass, from_rows.
  destruct (starting_balance b) as [x|] eqn:E; simpl.
  - exists b; repeat split; assumption || reflexivity.
  - exists (fold_left first_row_update (tables r) b). split.
    + apply for_each_pure. apply first_row_step_ok.
    + destruct (first_row_fold (tables r) b) as [Hs He].
      rewrite Hs, He, E, or_else_none. split; reflexivity.
Qed.

Lemma last_row_pass_ok (r : AnalyzeResult) (b : balances) :
  exists b', last_row_pass r b = Ok b'
    /\ ending_balance b' = or_else (ending_balance b) (from_rows Ending r)
    /\ starting_balance b' = starting_balance b.
Proof.
  unfold last_row_pass, from_rows.
  destruct (ending_balance b) as [x|] eqn:E; simpl.
  - exists b; repeat split; assumption || reflexivity.
  - exists (fold_left last_row_update (tables r) b). split.
    + apply for_each_pure. apply last_row_step_ok.
    + destruct (last_row_fold (tables r) b) as [He Hs].
      rewrite He, Hs, E, or_else_none. split; reflexivity.
Qed.

(** ** The cascade *)

Lemma find_balances_ok (r : AnalyzeResult) :
  exists b, find_balances r = Ok b /\ forall f, balance_of f b = resolved f r.
Proof.
  unfold find_balances. rewrite key_value_pass_ok; simpl.
  destruct (adjacency_pass_ok r (fold_left key_value_update (key_value_pairs r) unset))
    as (b2 & E2 & H2).
  fold unset. rewrite E2; simpl.
  destruct (first_row_pass_ok r b2) as (b3 & E3 & H3s & H3e). rewrite E3; simpl.
  destruct (last_row_pass_ok r b3) as (b4 & E4 & H4e & H4s).
  exists b4; split; [exact E4|].
  assert (K : forall f, balance_of f b2 = or_else (from_pairs f r) (from_labels f r)).
  { intros f. rewrite H2, key_value_fold_field. unfold from_pairs.
    replace (balance_of f unset) with (@None float) by (destruct f; reflexivity).
    rewrite or_else_none. reflexivity. }
  intros [|]; unfold resolved.
  - rewrite <- (K Starting). simpl. rewrite H4s, H3s. reflexivity.
  - rewrite <- (K Ending). simpl. rewrite H4e, H3e. reflexivity.
Qed.

(** ** Transactions *)

Lemma for_each_append {A B : Type} (body : list B -> A -> result (list B))
  (g : A -> list B) :
  (forall acc x, body acc x = Ok (acc ++ g x)) ->
  forall xs acc, for_each body xs acc = Ok (acc ++ flat_map g xs).
Proof.
  intros Hbody xs; induction xs as [|x xs IH]; intros acc; simpl.
  - rewrite app_nil_r; reflexivity.
  - rewrite Hbody; simpl. rewrite IH, app_assoc. reflexivity.
Qed.

Lemma transaction_step_ok (t : DocumentTable) (acc : list transaction)
  (c : DocumentTableCell) :
  transaction_step t acc c = Ok (acc ++ emitted t c).
Proof.
  unfold transaction_step, emitted, row_of, transaction_of.
  destruct (row_index c >? 0); [|rewrite app_nil_r; reflexivity].
  destruct (map content (filter (in_row (row_index c)) (cells t)))
    as [|r0 [|r1 [|r2 rest]]]; try (rewrite app_nil_r; reflexivity).
  rewrite safe_float_text.
  replace (3 <=? Z.of_nat (List.length (r0 :: r1 :: r2 :: rest))) with true
    by (symmetry; apply Z.leb_le; simpl List.length; lia).
  reflexivity.
Qed.

Lemma extract_transactions_ok (r : AnalyzeResult) :
  extract_transactions r = Ok (all_emitted r).
Proof.
  unfold extract_transactions, all_emitted.
  rewrite (for_each_append transaction_table
             (fun t => flat_map (emitted t) (cells t))); [reflexivity|].
  intros acc t. unfold transaction_table.
  apply for_each_append. intros acc0 c. apply transaction_step_ok.
Qed.

(** ** The function as a whole *)

Lemma analyze_result_ok (file_path : string) (r : AnalyzeResult) :
  analyze_result file_path r
  = (warnings_of file_path r,
     Ok {| data_starting_balance := default_of (resolved Starting r);
           data_ending_balance := default_of (resolved Ending r);
           data_transactions := all_emitted r |}).
Proof.
  unfold analyze_result, warnings_of.
  destruct (find_balances_ok r) as (b & E & H). rewrite E.
  unfold apply_defaults.
  rewrite <- (H Starting), <- (H Ending); simpl.
  rewrite extract_transactions_ok; simpl.
  destruct (starting_balance b), (ending_balance b); reflexivity.
Qed.

Lemma analyze_bank_statement_ok (client : string -> result AnalyzeResult)
  (file_path : string) (r : AnalyzeResult) :
  client file_path = Ok r ->
  analyze_bank_statement client file_path
  = (("Analyzing document: " ++ file_path)%string :: warnings_of file_path r,
     {| data_starting_balance := default_of (resolved Starting r);
        data_ending_balance := default_of (resolved Ending r);
        data_transactions := all_emitted r |}).
Proof.
  intros H. unfold analyze_bank_statement. rewrite H, analyze_result_ok. reflexivity.
Qed.

Lemma resolved_from_pairs (f : field) (r : AnalyzeResult) (x : float) :
  from_pairs f r = Some x -> resolved f r = Some x.
Proof. unfold resolved. intros ->. reflexivity. Qed.

Lemma from_pairs_split (f : field) (r : AnalyzeResult)
  (before after : list DocumentKeyValuePair) (p : DocumentKeyValuePair) :
  key_value_pairs r = before ++ p :: after ->
  label f (key_text p) = true ->
  (forall q, In q after -> label f (key_text q) = false) ->
  from_pairs f r = Some (money (value_text p)).
Proof.
  intros Hsplit Hp Hafter. unfold from_pairs.
  rewrite Hsplit, (last_matching_split f before after p Hp Hafter). reflexivity.
Qed.

(** C3 as stated fails: of two pairs with a starting label, the first
    one's value is not the starting balance. *)
Lemma any_matching_pair_refuted :
  ~ (forall r p,
        In p (key_value_pairs r) ->
        starting_label (key_text p) = true ->
        exists b, find_balances r = Ok b
                  /\ starting_balance b = Some (money (value_text p))).
Proof.
  intros H.
  destruct (H two_openings (mk_pair "Opening Balance" "100.00")) as (b & E & Hb).
  - left; reflexivity.
  - reflexivity.
  - vm_compute in E. injection E as <-. simpl in Hb.
    apply (f_equal (fun o => PrimFloat.eqb (default_of o) 100)) in Hb.
    vm_compute in Hb. discriminate Hb.
Qed.

(** C3, amended: when some pair's key carries the starting label, the
    starting balance is the parsed value of the last such pair, whatever
    the tables hold and also when that value is 0.0: the two table
    passes leave the field as the key-value pass set it. *)
Theorem key_value_start_precedes_tables (r : AnalyzeResult) :
  (exists p, In p (key_value_pairs r) /\ starting_label (key_text p) = true) ->
  exists q,
    last_matching Starting (key_value_pairs r) = Some q
    /\ In q (key_value_pairs r)
    /\ starting_label (key_text q) = true
    /\ (exists b1, key_value_pass r unset = Ok b1
                   /\ starting_balance b1 = Some (money (value_text q)))
    /\ forall r', key_value_pairs r' = key_value_pairs r ->
         exists b, find_balances r' = Ok b
                   /\ starting_balance b = Some (money (value_text q)).
Proof.
  intros (p & Hin & Hp).
  destruct (last_matching_exists Starting _ p Hin Hp) as (q & Hq).
  exists q. split; [exact Hq|].
  pose proof (find_holds _ _ _ Hq) as [Hqin Hqp].
  apply in_rev in Hqin.
  split; [exact Hqin|]. split; [exact Hqp|]. split.
  - exists (fold_left key_value_update (key_value_pairs r) unset).
    split; [apply key_value_pass_ok|].
    rewrite (key_value_fold_field Starting), Hq. reflexivity.
  - intros r' Hsame.
    destruct (find_balances_ok r') as (b & E & H). exists b; split; [exact E|].
    change (starting_balance b) with (balance_of Starting b).
    rewrite (H Starting). apply resolved_from_pairs.
    unfold from_pairs. rewrite Hsame, Hq. reflexivity.
Qed.

Lemma key_value_start_precedes_tables_witness :
  (exists p, In p (key_value_pairs zero_opening) /\ starting_label (key_text p) = true)
  /\ exists b, find_balances zero_opening = Ok b
               /\ starting_balance b = Some 0%float.
Proof.
  assert (Hex : exists p, In p (key_value_pairs zero_opening)
                          /\ starting_label (key_text p) = true).
  { exists (mk_pair "Opening Balance" "0.00"). split; [left; reflexivity | reflexivity]. }
  split; [exact Hex|].
  destruct (key_value_start_precedes_tables zero_opening Hex)
    as (q & Hq & _ & _ & _ & Hfinal).
  destruct (Hfinal zero_opening eq_refl) as (b & E & Hb).
  exists b. split; [exact E|].
  rewrite Hb. vm_compute in Hq. injection Hq as <-. reflexivity.
Defined.

Lemma key_value_last_match_wins_witness :
  key_value_pairs two_openings
  = [mk_pair "Opening Balance" "100.00"] ++ mk_pair "Previous Balance" "200.00" :: []
  /\ exists b, key_value_pass two_openings unset = Ok b
               /\ balance_of Starting b = Some (money "200.00").
Proof.
  split; [reflexivity|].
  apply (key_value_last_match_wins Starting two_openings
           [mk_pair "Opening Balance" "100.00"] []
           (mk_pair "Previous Balance" "200.00")).
  - reflexivity.
  - reflexivity.
  - intros q [].
Defined.

(** C10: a pair whose key carries a balance label and whose value side
    is absent is read as empty text, which parses to 0.0; the key-value
    pass sets the field to 0.0, and the table passes leave that field as
    the key-value pass set it. *)
Theorem absent_value_reads_zero (f : field) (r : AnalyzeResult)
  (before after : list DocumentKeyValuePair) (p : DocumentKeyValuePair) :
  key_value_pairs r = before ++ p :: after ->
  value p = None ->
  label f (key_text p) = true ->
  value_text p = ""
  /\ safe_float (PyStr (value_text p)) = Ok 0%float
  /\ (forall b, exists b', key_value_step b p = Ok b'
                           /\ balance_of f b' = Some 0%float)
  /\ (exists b1 b, key_value_pass r unset = Ok b1
                   /\ find_balances r = Ok b
                   /\ balance_of f b1 <> None
                   /\ balance_of f b = balance_of f b1)
  /\ ((forall q, In q after -> label f (key_text q) = false) ->
      exists b, find_balances r = Ok b /\ balance_of f b = Some 0%float).
Proof.
  intros Hsplit Hv Hp.
  assert (Ht : value_text p = "") by (unfold value_text; rewrite Hv; reflexivity).
  assert (Hm : money (value_text p) = 0%float) by (rewrite Ht; reflexivity).
  split; [exact Ht|].
  split; [rewrite safe_float_text, Hm; reflexivity|].
  split.
  { intros b. exists (key_value_update b p). split; [apply key_value_step_ok|].
    rewrite key_value_update_field, Hp, Hm. reflexivity. }
  destruct (find_balances_ok r) as (b & E & H).
  assert (Hin : In p (key_value_pairs r)).
  { rewrite Hsplit. apply in_or_app. right. left. reflexivity. }
  destruct (last_matching_exists f _ p Hin Hp) as (q & Hq).
  split.
  { exists (fold_left key_value_update (key_value_pairs r) unset), b.
    split; [apply key_value_pass_ok|]. split; [exact E|].
    rewrite key_value_fold_field, Hq, (H f).
    unfold resolved, from_pairs. rewrite Hq. simpl. split; [discriminate | reflexivity]. }
  intros Hafter. exists b. split; [exact E|].
  rewrite (H f). apply resolved_from_pairs.
  rewrite (from_pairs_split f r before after p Hsplit Hp Hafter), Hm. reflexivity.
Qed.

Lemma absent_value_reads_zero_witness :
  value (label_only "Opening Balance") = None
  /\ exists b, find_balances bare_opening = Ok b
               /\ balance_of Starting b = Some 0%float.
Proof.
  split; [reflexivity|].
  apply (absent_value_reads_zero Starting bare_opening [] []
           (label_only "Opening Balance") eq_refl eq_refl eq_refl).
  intros q [].
Defined.

(** ** Label cells and their neighbours *)

Lemma adjacency_candidates_nonzero (f : field) (ts : list DocumentTable) (v : float) :
  In v (adjacency_candidates f ts) -> nonzero v = true.
Proof.
  unfold adjacency_candidates. intros H.
  apply in_flat_map in H. destruct H as (t & _ & H).
  apply in_flat_map in H. destruct H as (c & _ & H).
  unfold cell_candidates in H.
  destruct (label f (Text.lower (content c))); [|destruct H].
  unfold adjacent_values in H. apply filter_In in H. apply H.
Qed.

Lemma adjacency_candidates_inhabited (f : field) (ts : list DocumentTable)
  (t : DocumentTable) (c a : DocumentTableCell) :
  In t ts -> In c (cells t) -> label f (Text.lower (content c)) = true ->
  In a (cells t) -> is_adjacent c a = true -> nonzero (cell_money a) = true ->
  In (cell_money a) (adjacency_candidates f ts).
Proof.
  intros Ht Hc Hl Ha Hadj Hnz. unfold adjacency_candidates.
  apply in_flat_map. exists t. split; [exact Ht|].
  apply in_flat_map. exists c. split; [exact Hc|].
  unfold cell_candidates. rewrite Hl. unfold adjacent_values.
  apply filter_In. split; [|exact Hnz].
  apply in_map. apply filter_In. split; assumption.
Qed.

Lemma hd_error_in {A : Type} (xs : list A) (x : A) : hd_error xs = Some x -> In x xs.
Proof.
  destruct xs as [|y ys]; simpl; [discriminate|].
  intros H. left. congruence.
Qed.

(** C6: when the key-value pass leaves a field unset, the second pass
    gives it the first non-zero value found next to a label cell (same
    row, column one less or one greater), in the order of the loops; it
    never assigns a value that parses to 0.0; and whenever some label
    cell has such a non-zero neighbour the field is resolved by this
    pass and keeps that value to the end. *)
Theorem label_neighbour_resolves (f : field) (r : AnalyzeResult) (b1 : balances) :
  key_value_pass r unset = Ok b1 ->
  balance_of f b1 = None ->
  exists b2,
    adjacency_pass r b1 = Ok b2
    /\ balance_of f b2 = hd_error (adjacency_candidates f (tables r))
    /\ (forall v, balance_of f b2 = Some v -> nonzero v = true)
    /\ ((exists t c a,
            In t (tables r) /\ In c (cells t)
            /\ label f (Text.lower (content c)) = true
            /\ In a (cells t) /\ is_adjacent c a = true
            /\ nonzero (cell_money a) = true) ->
        exists v b,
          balance_of f b2 = Some v
          /\ find_balances r = Ok b /\ balance_of f b = Some v).
Proof.
  intros Hkv Hnone.
  destruct (adjacency_pass_ok r b1) as (b2 & E2 & H2).
  assert (Hb2 : balance_of f b2 = hd_error (adjacency_candidates f (tables r))).
  { rewrite H2, Hnone. reflexivity. }
  exists b2. split; [exact E2|]. split; [exact Hb2|]. split.
  - intros v Hv. rewrite Hb2 in Hv.
    apply (adjacency_candidates_nonzero f (tables r)). apply hd_error_in. exact Hv.
  - intros (t & c & a & Ht & Hc & Hl & Ha & Hadj & Hnz).
    pose proof (adjacency_candidates_inhabited f _ t c a Ht Hc Hl Ha Hadj Hnz) as Hin.
    destruct (adjacency_candidates f (tables r)) as [|v rest] eqn:Ecand; [destruct Hin|].
    destruct (find_balances_ok r) as (b & E & H).
    exists v, b. split; [exact Hb2|]. split; [exact E|].
    rewrite (H f). unfold resolved.
    assert (Hpairs : from_pairs f r = None).
    { rewrite key_value_pass_ok in Hkv. injection Hkv as <-.
      rewrite key_value_fold_field in Hnone. unfold from_pairs.
      destruct (option_map _ (last_matching f (key_value_pairs r)));
        [discriminate Hnone | reflexivity]. }
    rewrite Hpairs. unfold from_labels. rewrite Ecand. reflexivity.
Qed.

Lemma label_neighbour_resolves_witness :
  key_value_pass labelled_table unset = Ok unset
  /\ exists b, find_balances labelled_table = Ok b
               /\ balance_of Starting b = Some 500%float.
Proof.
  split; [reflexivity|].
  destruct (label_neighbour_resolves Starting labelled_table unset eq_refl eq_refl)
    as (b2 & _ & Hhd & _ & Hfinal).
  destruct Hfinal as (v & b & Hv & E & Hb).
  - exists {| cells := [mk_cell 0 0 "Item"; mk_cell 0 1 "Value";
                        mk_cell 1 0 "0.00"; mk_cell 1 1 "Opening balance";
                        mk_cell 1 2 "$500.00"] |},
           (mk_cell 1 1 "Opening balance"), (mk_cell 1 2 "$500.00").
    repeat split; try reflexivity; simpl; tauto.
  - exists b. split; [exact E|].
    rewrite Hb, <- Hv, Hhd. reflexivity.
Defined.

(** ** Defaults *)

(** C8: the three passes never raise, so the resolver always yields
    both balances; a field that no pass resolved becomes 0.0 and its
    warning is printed. *)
Theorem unresolved_balance_defaults (file_path : string) (r : AnalyzeResult) :
  exists b data,
    find_balances r = Ok b
    /\ snd (analyze_result file_path r) = Ok data
    /\ (forall client, client file_path = Ok r ->
          analyze_bank_statement client file_path
          = (("Analyzing document: " ++ file_path)%string
               :: fst (analyze_result file_path r), data))
    /\ forall f, balance_of f b = None ->
         data_balance f data = 0%float
         /\ In (warning f file_path) (fst (analyze_result file_path r)).
Proof.
  destruct (find_balances_ok r) as (b & E & H).
  exists b. eexists. split; [exact E|].
  rewrite analyze_result_ok. split; [reflexivity|]. split.
  - intros client Hc. apply analyze_bank_statement_ok. exact Hc.
  - intros f Hf. rewrite (H f) in Hf. simpl fst. unfold warnings_of.
    destruct f; simpl in *; rewrite Hf; simpl.
    + split; [reflexivity | left; reflexivity].
    + split; [reflexivity|]. apply in_or_app. right. left. reflexivity.
Qed.

Lemma unresolved_balance_defaults_witness :
  find_balances nothing_found = Ok unset
  /\ exists data,
       snd (analyze_result "a.pdf" nothing_found) = Ok data
       /\ data_balance Starting data = 0%float
       /\ In "Warning: Could not find starting balance in a.pdf. Using 0.0 as default."
             (fst (analyze_result "a.pdf" nothing_found)).
Proof.
  split; [reflexivity|].
  destruct (unresolved_balance_defaults "a.pdf" nothing_found)
    as (b & data & E & Hdata & _ & Hdefault).
  exists data. split; [exact Hdata|].
  apply (Hdefault Starting).
  vm_compute in E. injection E as <-. reflexivity.
Defined.

(** C9: in the third pass a table without cells is skipped for both
    fields, so [max] is never asked for the largest of no row indices
    (which would raise), and the pass never raises. *)
Theorem row_fallback_skips_empty_tables :
  py_max [] = Raise ValueError
  /\ (forall b t, cells t = [] ->
        first_row_step b t = Ok b /\ last_row_step b t = Ok b)
  /\ (forall b t, exists b', last_row_step b t = Ok b')
  /\ (forall r b, (exists b', first_row_pass r b = Ok b')
                  /\ (exists b', last_row_pass r b = Ok b')).
Proof.
  split; [reflexivity|]. split.
  - intros b t Ht. unfold first_row_step, last_row_step. rewrite Ht. split; reflexivity.
  - split.
    + intros b t. eexists. apply last_row_step_ok.
    + intros r b.
      destruct (first_row_pass_ok r b) as (b1 & E1 & _).
      destruct (last_row_pass_ok r b) as (b2 & E2 & _).
      split; eexists; eassumption.
Qed.

Lemma row_fallback_skips_empty_tables_witness :
  first_row_step unset {| cells := [] |} = Ok unset
  /\ last_row_step unset {| cells := [] |} = Ok unset.
Proof.
  destruct row_fallback_skips_empty_tables as (_ & Hskip & _).
  apply (Hskip unset {| cells := [] |}). reflexivity.
Defined.

(** C4, at an input where the code leaves the claim: the [break] of the
    third pass ends the scan of one table only, so with two tables that
    each hold a non-zero cell in the row scanned, the value of the later
    table replaces the one found in the first table, for the starting
    and for the ending balance alike. *)
Theorem row_fallback_later_table_overrides :
  first_row_value {| cells := [mk_cell 0 0 "100.00"] |} = Some 100%float
  /\ last_row_value {| cells := [mk_cell 0 0 "100.00"] |} = Some 100%float
  /\ find_balances two_tables
     = Ok {| starting_balance := Some 200%float; ending_balance := Some 200%float |}.
Proof. repeat split; reflexivity. Qed.

(** ** One record per cell *)

Lemma flat_map_constant {A B : Type} (g : A -> list B) (y : B) (xs : list A) :
  (forall x, In x xs -> g x = [y]) -> flat_map g xs = repeat y (List.length xs).
Proof.
  induction xs as [|x xs IH]; intros H; simpl; [reflexivity|].
  rewrite (H x (or_introl eq_refl)). simpl. f_equal.
  apply IH. intros z Hz. apply H. right. exact Hz.
Qed.

Lemma flat_map_nothing {A B : Type} (g : A -> list B) (xs : list A) :
  (forall x, In x xs -> g x = []) -> flat_map g xs = [].
Proof.
  induction xs as [|x xs IH]; intros H; simpl; [reflexivity|].
  rewrite (H x (or_introl eq_refl)). simpl.
  apply IH. intros z Hz. apply H. right. exact Hz.
Qed.

Lemma emitted_in_row (t : DocumentTable) (i : Z) (c : DocumentTableCell) :
  0 < i -> In c (filter (in_row i) (cells t)) ->
  emitted t c = if 3 <=? Z.of_nat (List.length (row_of t i))
                then [transaction_of (row_of t i)] else [].
Proof.
  intros Hi Hc. apply filter_In in Hc. destruct Hc as [_ Hrow].
  unfold in_row in Hrow. apply Z.eqb_eq in Hrow.
  unfold emitted. rewrite Hrow.
  replace (i >? 0) with true by (symmetry; apply Z.gtb_lt; exact Hi).
  reflexivity.
Qed.

(** C2: visiting a cell below row 0 appends one record when the row of
    that cell has three cells or more (date, description and amount from
    the first three, Credit when the amount is above zero, Debit
    otherwise) and nothing when it has fewer; the extractor returns the
    records of all cells in order; so the cells of a row of [n >= 3]
    cells yield [n] copies of the row's record, and the cells of a
    shorter row yield none. *)
Theorem one_transaction_per_cell :
  (forall t transactions c,
     transaction_step t transactions c
     = Ok (transactions ++
           if (row_index c >? 0)
              && (3 <=? Z.of_nat (List.length (row_of t (row_index c))))
           then [{| Date := nth 0 (row_of t (row_index c)) "";
                    Description := nth 1 (row_of t (row_index c)) "";
                    Amount := money (nth 2 (row_of t (row_index c)) "");
                    Direction :=
                      if above_zero (money (nth 2 (row_of t (row_index c)) ""))
                      then Credit else Debit |}]
           else []))
  /\ (forall r,
        extract_transactions r
        = Ok (flat_map (fun t => flat_map (emitted t) (cells t)) (tables r)))
  /\ (forall t i,
        0 < i ->
        flat_map (emitted t) (filter (in_row i) (cells t))
        = if 3 <=? Z.of_nat (List.length (row_of t i))
          then repeat (transaction_of (row_of t i)) (List.length (row_of t i))
          else []).
Proof.
  split; [intros t transactions c; apply transaction_step_ok|].
  split; [intros r; apply extract_transactions_ok|].
  intros t i Hi.
  destruct (3 <=? Z.of_nat (List.length (row_of t i))) eqn:E.
  - unfold row_of at 2. rewrite length_map.
    apply flat_map_constant. intros c Hc.
    rewrite (emitted_in_row t i c Hi Hc), E. reflexivity.
  - apply flat_map_nothing. intros c Hc.
    rewrite (emitted_in_row t i c Hi Hc), E. reflexivity.
Qed.

Lemma one_transaction_per_cell_witness :
  flat_map (emitted deposit_table) (filter (in_row 1) (cells deposit_table))
  = repeat {| Date := "01/02"; Description := "Deposit";
              Amount := 200%float; Direction := Credit |} 3
  /\ flat_map (emitted deposit_table) (filter (in_row 2) (cells deposit_table)) = [].
Proof.
  destruct one_transaction_per_cell as (_ & _ & Hrows).
  split.
  - rewrite (Hrows deposit_table 1); [reflexivity | lia].
  - rewrite (Hrows deposit_table 2); [reflexivity | lia].
Defined.

(** ** Reconciliation *)

Lemma py_sum_net_flow (ts : list transaction) (acc : float) :
  fold_left PrimFloat.add (map signed_amount ts) acc = Reconciliation.net_flow acc ts.
Proof.
  revert acc; induction ts as [|t ts IH]; intros acc; simpl; [reflexivity|].
  rewrite IH. unfold signed_amount. destruct (Direction t); reflexivity.
Qed.

Lemma process_file_variances (client : string -> result AnalyzeResult)
  (folder : string) (st : folder_state) (name : string) :
  variances (process_file client folder st name)
  = variances st ++ if is_pdf name then [variance_entry_of client folder name] else [].
Proof.
  unfold process_file, is_pdf, variance_entry_of, statement_of.
  destruct (Text.endswith name ".pdf"); [|rewrite app_nil_r; reflexivity].
  destruct (analyze_bank_statement client (path_join folder name)) as [lines data].
  simpl. unfold Reconciliation.variance, Reconciliation.expected_ending,
    Reconciliation.total_transactions, py_sum.
  rewrite py_sum_net_flow. reflexivity.
Qed.

Lemma process_file_discrepancies (client : string -> result AnalyzeResult)
  (folder : string) (st : folder_state) (name : string) :
  discrepancies (process_file client folder st name)
  = discrepancies st
    ++ if is_pdf name && Reconciliation.is_discrepant (statement_of client folder name)
       then [discrepancy_of client folder name] else [].
Proof.
  unfold process_file, is_pdf, discrepancy_of, statement_of.
  destruct (Text.endswith name ".pdf"); [|rewrite app_nil_r; reflexivity].
  destruct (analyze_bank_statement client (path_join folder name)) as [lines data].
  simpl. unfold Reconciliation.is_discrepant, Reconciliation.variance,
    Reconciliation.expected_ending, Reconciliation.total_transactions, py_sum.
  rewrite py_sum_net_flow.
  destruct (PrimFloat.ltb tolerance _); [reflexivity | rewrite app_nil_r; reflexivity].
Qed.

Lemma process_folder_from (client : string -> result AnalyzeResult)
  (folder : string) (listing : list string) (st : folder_state) :
  let final := fold_left (process_file client folder) listing st in
  variances final
  = variances st ++ map (variance_entry_of client folder) (filter is_pdf listing)
  /\ discrepancies final
     = discrepancies st
       ++ map (discrepancy_of client folder)
            (filter (fun name =>
                       Reconciliation.is_discrepant (statement_of client folder name))
               (filter is_pdf listing)).
Proof.
  revert st; induction listing as [|name listing IH]; intros st; simpl.
  - rewrite !app_nil_r. split; reflexivity.
  - destruct (IH (process_file client folder st name)) as [Hv Hd].
    rewrite Hv, Hd, process_file_variances, process_file_discrepancies.
    rewrite <- !app_assoc.
    destruct (is_pdf name); simpl; [|split; reflexivity].
    destruct (Reconciliation.is_discrepant (statement_of client folder name));
      simpl; split; reflexivity.
Qed.

(** C1: for every statement read from the folder, the total of the
    transactions adds each amount when the direction is Credit and its
    negation when it is Debit, the expected ending balance is the
    starting balance plus that total, the variance is the ending balance
    minus the expected one, and the statement is listed as discrepant
    exactly when the absolute value of the variance exceeds 0.01. *)
Theorem reconciliation_law (client : string -> result AnalyzeResult)
  (listing : list string) (input_folder : string) :
  let final := process_folder client listing input_folder in
  let pdfs := filter (fun name => Text.endswith name ".pdf") listing in
  let data := statement_of client input_folder in
  let total := fun name => Reconciliation.net_flow 0%float (data_transactions (data name)) in
  let expected := fun name => (data_starting_balance (data name) + total name)%float in
  let variance := fun name => (data_ending_balance (data name) - expected name)%float in
  variances final
  = map (fun name => {| variance_file := name; variance_value := variance name |}) pdfs
  /\ discrepancies final
     = map (fun name =>
              {| d_file := name;
                 d_starting_balance := data_starting_balance (data name);
                 d_total_transactions := total name;
                 d_expected_ending := expected name;
                 d_actual_ending := data_ending_balance (data name);
                 d_variance := variance name |})
         (filter (fun name => PrimFloat.ltb tolerance (abs (variance name))) pdfs).
Proof.
  intros final pdfs data total expected variance.
  destruct (process_folder_from client input_folder listing empty_state) as [Hv Hd].
  split.
  - unfold final, process_folder. rewrite Hv. reflexivity.
  - unfold final, process_folder. rewrite Hd. reflexivity.
Qed.

(** * Further properties of the code *)

(** ** Separators in amounts *)

Lemma remove_app (c : ascii) (s1 s2 : string) :
  Text.remove c (s1 ++ s2)%string = (Text.remove c s1 ++ Text.remove c s2)%string.
Proof.
  induction s1 as [|d s1 IH]; simpl; [reflexivity|].
  destruct (Ascii.eqb d c); simpl; rewrite IH; reflexivity.
Qed.

(** X1: a comma or a dollar sign is dropped wherever it stands, not only
    between groups of three digits or in front: with or without it the
    text parses to the same value. *)
Theorem separators_are_ignored_anywhere (s1 s2 : string) :
  safe_float (PyStr (s1 ++ "," ++ s2)%string) = safe_float (PyStr (s1 ++ s2)%string)
  /\ safe_float (PyStr (s1 ++ "$" ++ s2)%string) = safe_float (PyStr (s1 ++ s2)%string).
Proof.
  rewrite !safe_float_text. unfold money. split.
  - rewrite (remove_app "," s1 ("," ++ s2)). simpl.
    rewrite <- remove_app. reflexivity.
  - rewrite (remove_app "," s1 ("$" ++ s2)), (remove_app "," s1 s2). simpl.
    rewrite (remove_app "$" (Text.remove "," s1) (String "$" (Text.remove "," s2))).
    simpl. rewrite <- remove_app. reflexivity.
Qed.

(** ** Pairs without a label *)

Lemma unlabelled_pair_changes_nothing (b : balances) (p : DocumentKeyValuePair) :
  carries_a_label p = false -> key_value_update b p = b.
Proof.
  unfold carries_a_label, key_value_update. intros H.
  apply orb_false_iff in H. destruct H as [Hs He]. rewrite Hs, He. reflexivity.
Qed.

Lemma fold_skips_unlabelled (pairs : list DocumentKeyValuePair) (b : balances) :
  fold_left key_value_update (filter carries_a_label pairs) b
  = fold_left key_value_update pairs b.
Proof.
  revert b; induction pairs as [|p pairs IH]; intros b; simpl; [reflexivity|].
  destruct (carries_a_label p) eqn:E; simpl.
  - apply IH.
  - rewrite (unlabelled_pair_changes_nothing b p E). apply IH.
Qed.

(** X2: the key-value pass only looks at pairs whose key carries one of
    the two labels; a pair without a key never does, whatever its value,
    and dropping all pairs without a label leaves the result of the pass
    unchanged. *)
Theorem key_value_pass_ignores_unlabelled_pairs (r : AnalyzeResult) (b : balances) :
  (forall p, key p = None -> key_value_step b p = Ok b)
  /\ (forall p, carries_a_label p = false -> key_value_step b p = Ok b)
  /\ key_value_pass
       {| key_value_pairs := filter carries_a_label (key_value_pairs r);
          tables := tables r |} b
     = key_value_pass r b.
Proof.
  split; [|split].
  - intros p Hp. rewrite key_value_step_ok. apply f_equal.
    apply unlabelled_pair_changes_nothing.
    unfold carries_a_label, key_text. rewrite Hp. reflexivity.
  - intros p Hp. rewrite key_value_step_ok. apply f_equal.
    apply unlabelled_pair_changes_nothing. exact Hp.
  - rewrite !key_value_pass_ok. simpl. rewrite fold_skips_unlabelled. reflexivity.
Qed.

Lemma key_value_pass_ignores_unlabelled_pairs_witness :
  key_value_step unset {| key := None; value := Some {| element_content := "5.00" |} |}
  = Ok unset.
Proof.
  destruct (key_value_pass_ignores_unlabelled_pairs two_openings unset) as (Hkey & _).
  apply Hkey. reflexivity.
Defined.

(** ** Neighbouring cells *)

(** X3: being a horizontal neighbour is mutual, and no cell is its own
    neighbour, so a label cell is never read as its own value. *)
Theorem adjacency_is_mutual (c a : DocumentTableCell) :
  is_adjacent c a = is_adjacent a c /\ is_adjacent c c = false.
Proof.
  unfold is_adjacent. split.
  - destruct (Z.eqb_spec (row_index a) (row_index c)),
             (Z.eqb_spec (row_index c) (row_index a)),
             (Z.eqb_spec (column_index a) (column_index c + 1)),
             (Z.eqb_spec (column_index a) (column_index c - 1)),
             (Z.eqb_spec (column_index c) (column_index a + 1)),
             (Z.eqb_spec (column_index c) (column_index a - 1));
      simpl; try reflexivity; lia.
  - replace (column_index c =? column_index c + 1) with false
      by (symmetry; apply Z.eqb_neq; lia).
    replace (column_index c =? column_index c - 1) with false
      by (symmetry; apply Z.eqb_neq; lia).
    apply andb_false_r.
Qed.

(** ** What the table passes can yield *)

Lemma find_nothing {A : Type} (p : A -> bool) (xs : list A) :
  (forall x, In x xs -> p x = false) -> find p xs = None.
Proof.
  intros H. rewrite <- (app_nil_r xs). rewrite (find_skip p xs [] H). reflexivity.
Qed.

Lemma from_pairs_none (f : field) (r : AnalyzeResult) :
  (forall p, In p (key_value_pairs r) -> label f (key_text p) = false) ->
  from_pairs f r = None.
Proof.
  intros H. unfold from_pairs, last_matching.
  rewrite find_nothing; [reflexivity|].
  intros p Hp. apply H. apply in_rev. exact Hp.
Qed.

Lemma last_some_in (vs : list (option float)) (v : float) :
  last_some vs = Some v -> In (Some v) vs.
Proof.
  induction vs as [|o vs IH] using rev_ind; [discriminate|].
  rewrite last_some_snoc. intros H. apply in_or_app.
  destruct o as [x|]; simpl in H.
  - right. left. exact H.
  - left. apply IH. exact H.
Qed.

Lemma last_some_split (before after : list (option float)) (v : float) :
  (forall o, In o after -> o = None) ->
  last_some (before ++ Some v :: after) = Some v.
Proof.
  induction after as [|o after IH] using rev_ind; intros H.
  - rewrite last_some_snoc. reflexivity.
  - rewrite app_comm_cons, app_assoc, last_some_snoc.
    rewrite (H o) by (apply in_or_app; right; left; reflexivity). simpl.
    apply IH. intros o' Ho'. apply H. apply in_or_app. left. exact Ho'.
Qed.

Lemma fallback_value_nonzero (f : field) (t : DocumentTable) (v : float) :
  fallback_value f t = Some v -> nonzero v = true.
Proof.
  destruct f; simpl; unfold first_row_value, last_row_value, row_value;
    intros H; apply find_holds in H; apply H.
Qed.

Lemma from_rows_nonzero (f : field) (r : AnalyzeResult) (v : float) :
  from_rows f r = Some v -> nonzero v = true.
Proof.
  unfold from_rows. intros H. apply last_some_in in H.
  apply in_map_iff in H. destruct H as (t & Ht & _).
  apply (fallback_value_nonzero f t v Ht).
Qed.

Lemma from_labels_nonzero (f : field) (r : AnalyzeResult) (v : float) :
  from_labels f r = Some v -> nonzero v = true.
Proof.
  unfold from_labels. intros H.
  apply (adjacency_candidates_nonzero f (tables r)). apply hd_error_in. exact H.
Qed.

(** X4: the table passes never yield a zero.  When no pair carries the
    label of a field, the balance returned for it is either non-zero
    or it is the default 0.0, and then the warning for the field has
    been printed: a zero balance without a warning can only come from a
    key-value pair. *)
Theorem zero_from_tables_means_warning (f : field) (file_path : string)
  (r : AnalyzeResult) :
  (forall p, In p (key_value_pairs r) -> label f (key_text p) = false) ->
  exists data,
    snd (analyze_result file_path r) = Ok data
    /\ (nonzero (data_balance f data) = true
        \/ (data_balance f data = 0%float
            /\ In (warning f file_path) (fst (analyze_result file_path r)))).
Proof.
  intros Hpairs. rewrite analyze_result_ok. eexists. split; [reflexivity|].
  assert (R : resolved f r = or_else (from_labels f r) (from_rows f r)).
  { unfold resolved. rewrite (from_pairs_none f r Hpairs). reflexivity. }
  assert (D : forall v, resolved f r = Some v -> nonzero v = true).
  { intros v Hv. rewrite R in Hv.
    destruct (from_labels f r) as [x|] eqn:E; simpl in Hv.
    - apply (from_labels_nonzero f r). rewrite E. exact Hv.
    - apply (from_rows_nonzero f r v Hv). }
  simpl fst. unfold warnings_of.
  destruct f; simpl; destruct (resolved _ r) as [v|] eqn:E; simpl.
  - left. apply D. reflexivity.
  - right. split; [reflexivity | left; reflexivity].
  - left. apply D. reflexivity.
  - right. split; [reflexivity|]. apply in_or_app. right. left. reflexivity.
Qed.

Lemma zero_from_tables_means_warning_witness :
  exists data,
    snd (analyze_result "a.pdf" labelled_table) = Ok data
    /\ (nonzero (data_balance Ending data) = true
        \/ (data_balance Ending data = 0%float
            /\ In (warning Ending "a.pdf") (fst (analyze_result "a.pdf" labelled_table)))).
Proof.
  apply (zero_from_tables_means_warning Ending "a.pdf" labelled_table).
  intros p [].
Defined.

(** X5: in the row-position pass, within a table the first non-zero
    cell of the scanned row is taken, and each table that has one
    replaces what earlier tables gave: when no pair and no label cell
    resolves the field, the balance is the value of the last table that
    has a non-zero cell in row 0 (starting balance) or in its row of
    largest index (ending balance). *)
Theorem row_fallback_takes_last_table (f : field) (r : AnalyzeResult)
  (before after : list DocumentTable) (t : DocumentTable) (v : float) :
  (forall p, In p (key_value_pairs r) -> label f (key_text p) = false) ->
  adjacency_candidates f (tables r) = [] ->
  tables r = before ++ t :: after ->
  find nonzero
    (map cell_money
       (filter (in_row (match f with Starting => 0 | Ending => max_row_of t end))
          (cells t))) = Some v ->
  (forall t', In t' after -> fallback_value f t' = None) ->
  exists b, find_balances r = Ok b /\ balance_of f b = Some v.
Proof.
  intros Hpairs Hlabels Hsplit Hv Hafter.
  destruct (find_balances_ok r) as (b & E & H). exists b. split; [exact E|].
  rewrite (H f). unfold resolved.
  rewrite (from_pairs_none f r Hpairs). unfold from_labels. rewrite Hlabels. simpl.
  unfold from_rows. rewrite Hsplit, map_app. simpl.
  assert (Ht : fallback_value f t = Some v) by (destruct f; exact Hv).
  rewrite Ht. apply last_some_split.
  intros o Ho. apply in_map_iff in Ho. destruct Ho as (t' & <- & Ht').
  apply Hafter. exact Ht'.
Qed.

Lemma row_fallback_takes_last_table_witness :
  exists b, find_balances two_tables = Ok b
            /\ balance_of Starting b = Some 200%float.
Proof.
  apply (row_fallback_takes_last_table Starting two_tables
           [{| cells := [mk_cell 0 0 "100.00"] |}] []
           {| cells := [mk_cell 0 0 "200.00"] |} 200%float).
  - intros p [].
  - reflexivity.
  - reflexivity.
  - reflexivity.
  - intros t' [].
Defined.

(** ** Signs of the amounts *)

Lemma not_below_zero_spec (x : float) :
  not_below_zero x = sf_not_below_zero (Prim2SF x).
Proof.
  unfold not_below_zero, sf_not_below_zero. rewrite FloatAxioms.ltb_spec. reflexivity.
Qed.

Lemma above_zero_not_below (a : float) :
  above_zero a = true -> not_below_zero a = true.
Proof.
  rewrite not_below_zero_spec. unfold above_zero. rewrite FloatAxioms.ltb_spec.
  change (Prim2SF 0) with (S754_zero false).
  destruct (Prim2SF a) as [s|s| |s m e]; try destruct s; simpl;
    try discriminate; reflexivity.
Qed.

Lemma negated_not_below (a : float) :
  above_zero a = false -> not_below_zero (- a) = true.
Proof.
  rewrite not_below_zero_spec, FloatAxioms.opp_spec.
  unfold above_zero. rewrite FloatAxioms.ltb_spec.
  change (Prim2SF 0) with (S754_zero false).
  destruct (Prim2SF a) as [s|s| |s m e]; try destruct s; simpl;
    try discriminate; reflexivity.
Qed.

Lemma rounded_not_below (mx ex : Z) (lx : location) :
  sf_not_below_zero (binary_round_aux prec emax false mx ex lx) = true.
Proof.
  unfold binary_round_aux.
  destruct (shr_fexp prec emax mx ex lx) as [mrs' e'].
  destruct (shr_fexp prec emax _ e' loc_Exact) as [mrs'' e''].
  destruct (shr_m mrs''); [reflexivity | | reflexivity].
  destruct (Z.leb e'' (emax - prec)); reflexivity.
Qed.

Lemma sf_add_not_below (x y : spec_float) :
  sf_not_below_zero x = true -> sf_not_below_zero y = true ->
  sf_not_below_zero (SF64add x y) = true.
Proof.
  destruct x as [sx|sx| |sx mx ex]; destruct y as [sy|sy| |sy my ey];
    try destruct sx; try destruct sy; simpl; try discriminate; try reflexivity.
  intros _ _. unfold SF64add, SFadd, cond_Zopp.
  destruct (shl_align mx ex (Z.min ex ey)) as [m1 e1].
  destruct (shl_align my ey (Z.min ex ey)) as [m2 e2].
  simpl fst. change (Z.pos m1 + Z.pos m2) with (Z.pos (m1 + m2)).
  unfold binary_normalize, binary_round.
  destruct (shl_align (m1 + m2) (Z.min ex ey) _) as [mz ez].
  apply rounded_not_below.
Qed.

Lemma add_not_below (x y : float) :
  not_below_zero x = true -> not_below_zero y = true ->
  not_below_zero (x + y) = true.
Proof.
  rewrite !not_below_zero_spec, FloatAxioms.add_spec. apply sf_add_not_below.
Qed.

Lemma signed_amount_of_row (row : list string) :
  not_below_zero (signed_amount (transaction_of row)) = true.
Proof.
  unfold signed_amount, transaction_of. simpl.
  destruct (above_zero (money (nth 2 row ""))) eqn:E.
  - apply above_zero_not_below. exact E.
  - apply negated_not_below. exact E.
Qed.

Lemma emitted_is_a_row_record (r : AnalyzeResult) (t : transaction) :
  In t (all_emitted r) -> exists row, t = transaction_of row.
Proof.
  unfold all_emitted. intros H.
  apply in_flat_map in H. destruct H as (table & _ & H).
  apply in_flat_map in H. destruct H as (c & _ & H).
  unfold emitted in H.
  destruct (_ && _); [|destruct H].
  destruct H as [<-|[]]. eexists. reflexivity.
Qed.

(** X6: every extracted transaction is a Credit exactly when its amount
    is above zero, and what it adds to the total is never below zero: a
    negative amount is marked Debit and then negated, so it counts with
    its absolute value. *)
Theorem debits_are_added_back (r : AnalyzeResult) (transactions : list transaction)
  (t : transaction) :
  extract_transactions r = Ok transactions ->
  In t transactions ->
  (Direction t = Credit <-> PrimFloat.ltb 0 (Amount t) = true)
  /\ PrimFloat.ltb (signed_amount t) 0 = false.
Proof.
  rewrite extract_transactions_ok. intros E Hin.
  apply (f_equal (fun o => match o with
                           | Ok l => l
                           | Raise _ => []
                           end)) in E.
  simpl in E. subst transactions.
  destruct (emitted_is_a_row_record r t Hin) as (row & ->). split.
  - unfold transaction_of, above_zero; simpl.
    destruct (PrimFloat.ltb 0 (money (nth 2 row ""))); split; congruence.
  - pose proof (signed_amount_of_row row) as H.
    unfold not_below_zero in H. apply negb_true_iff in H. exact H.
Qed.

Lemma debits_are_added_back_witness :
  PrimFloat.ltb
    (signed_amount {| Date := "01/05"; Description := "Withdrawal";
                      Amount := (-50)%float; Direction := Debit |}) 0 = false.
Proof.
  apply (debits_are_added_back withdrawal_statement
           (repeat {| Date := "01/05"; Description := "Withdrawal";
                      Amount := (-50)%float; Direction := Debit |} 3)).
  - reflexivity.
  - left. reflexivity.
Defined.

Lemma sum_not_below (xs : list float) (acc : float) :
  (forall x, In x xs -> not_below_zero x = true) ->
  not_below_zero acc = true ->
  not_below_zero (fold_left PrimFloat.add xs acc) = true.
Proof.
  revert acc; induction xs as [|x xs IH]; intros acc Hxs Hacc; simpl; [exact Hacc|].
  apply IH.
  - intros y Hy. apply Hxs. right. exact Hy.
  - apply add_not_below; [exact Hacc | apply Hxs; left; reflexivity].
Qed.

Lemma statement_after_failure (client : string -> result AnalyzeResult)
  (file_path : string) (e : exn) :
  client file_path = Raise e ->
  analyze_bank_statement client file_path
  = ([("Analyzing document: " ++ file_path)%string; error_line file_path e],
     failed_data).
Proof. intros H. unfold analyze_bank_statement. rewrite H. reflexivity. Qed.

Lemma statement_transactions (client : string -> result AnalyzeResult)
  (folder name : string) :
  data_transactions (statement_of client folder name) = []
  \/ exists r, data_transactions (statement_of client folder name) = all_emitted r.
Proof.
  unfold statement_of.
  destruct (client (path_join folder name)) as [r|e] eqn:E.
  - right. exists r. rewrite (analyze_bank_statement_ok client _ r E). reflexivity.
  - left. rewrite (statement_after_failure client _ e E). reflexivity.
Qed.

(** X7: the total of the transactions of a statement is never below
    zero, whatever the tables hold: every record adds an amount that is
    not below zero, so debits never reduce the expected ending balance. *)
Theorem total_transactions_never_negative (client : string -> result AnalyzeResult)
  (input_folder file_name : string) :
  PrimFloat.ltb
    (py_sum (map signed_amount
               (data_transactions (statement_of client input_folder file_name))))
    0 = false.
Proof.
  apply negb_true_iff. fold (not_below_zero
    (py_sum (map signed_amount
               (data_transactions (statement_of client input_folder file_name))))).
  unfold py_sum. apply sum_not_below; [|reflexivity].
  intros x Hx. apply in_map_iff in Hx. destruct Hx as (t & <- & Ht).
  destruct (statement_transactions client input_folder file_name) as [E|(r & E)];
    rewrite E in Ht; [destruct Ht|].
  destruct (emitted_is_a_row_record r t Ht) as (row & ->).
  apply signed_amount_of_row.
Qed.

(** ** The folder loop *)

Lemma process_file_skips (client : string -> result AnalyzeResult)
  (folder : string) (st : folder_state) (name : string) :
  is_pdf name = false -> process_file client folder st name = st.
Proof. unfold is_pdf, process_file. intros ->. reflexivity. Qed.

Lemma fold_skips_other_files (client : string -> result AnalyzeResult)
  (folder : string) (listing : list string) (st : folder_state) :
  fold_left (process_file client folder) listing st
  = fold_left (process_file client folder) (filter is_pdf listing) st.
Proof.
  revert st; induction listing as [|name listing IH]; intros st; simpl; [reflexivity|].
  destruct (is_pdf name) eqn:E; simpl.
  - apply IH.
  - rewrite (process_file_skips client folder st name E). apply IH.
Qed.

(** X8: files whose name does not end in [.pdf] leave no trace: the
    four accumulators and the printed lines are those of the listing
    without them. *)
Theorem other_files_are_ignored (client : string -> result AnalyzeResult)
  (listing : list string) (input_folder : string) :
  process_folder client listing input_folder
  = process_folder client
      (filter (fun name => Text.endswith name ".pdf") listing) input_folder.
Proof. unfold process_folder. apply fold_skips_other_files. Qed.

Lemma in_pdfs (listing : list string) (name : string) :
  In name listing -> is_pdf name = true -> In name (filter is_pdf listing).
Proof. intros Hin Hpdf. apply filter_In. split; assumption. Qed.

(** X9: a statement on which the service fails does not stop the
    folder: the function prints the error, returns zero balances and no
    transactions, so the file gets the variance 0.0 and is never listed
    among the discrepancies. *)
Theorem failed_statement_is_not_a_discrepancy
  (client : string -> result AnalyzeResult) (listing : list string)
  (input_folder file_name : string) (e : exn) :
  client (path_join input_folder file_name) = Raise e ->
  In file_name listing ->
  Text.endswith file_name ".pdf" = true ->
  analyze_bank_statement client (path_join input_folder file_name)
  = ([("Analyzing document: " ++ path_join input_folder file_name)%string;
      error_line (path_join input_folder file_name) e],
     {| data_starting_balance := 0%float;
        data_ending_balance := 0%float;
        data_transactions := [] |})
  /\ In {| variance_file := file_name; variance_value := 0%float |}
        (variances (process_folder client listing input_folder))
  /\ ~ In file_name
         (map d_file (discrepancies (process_folder client listing input_folder))).
Proof.
  intros Hfail Hin Hpdf.
  pose proof (statement_after_failure client _ e Hfail) as Hdata.
  assert (Hst : statement_of client input_folder file_name = failed_data).
  { unfold statement_of. rewrite Hdata. reflexivity. }
  destruct (process_folder_from client input_folder listing empty_state) as [Hv Hd].
  split; [exact Hdata|]. split.
  - unfold process_folder. rewrite Hv. simpl.
    apply in_map_iff. exists file_name. split; [|apply in_pdfs; assumption].
    unfold variance_entry_of. rewrite Hst. reflexivity.
  - unfold process_folder. rewrite Hd. simpl. rewrite map_map. simpl.
    intros H. apply in_map_iff in H. destruct H as (n & Hn & H).
    simpl in Hn. subst n. apply filter_In in H. destruct H as [_ H].
    rewrite Hst in H. vm_compute in H. discriminate H.
Qed.

Lemma failed_statement_is_not_a_discrepancy_witness :
  In {| variance_file := "bad.pdf"; variance_value := 0%float |}
     (variances (process_folder failing_client ["a.pdf"; "bad.pdf"] "in"))
  /\ ~ In "bad.pdf"
         (map d_file
            (discrepancies (process_folder failing_client ["a.pdf"; "bad.pdf"] "in"))).
Proof.
  apply (failed_statement_is_not_a_discrepancy failing_client
           ["a.pdf"; "bad.pdf"] "in" "bad.pdf" ServiceError).
  - reflexivity.
  - right. left. reflexivity.
  - reflexivity.
Defined.

Lemma process_file_all_data (client : string -> result AnalyzeResult)
  (folder : string) (st : folder_state) (name : string) :
  all_data (process_file client folder st name)
  = all_data st ++ if is_pdf name then [summary_of client folder name] else [].
Proof.
  unfold process_file, is_pdf, summary_of, statement_of.
  destruct (Text.endswith name ".pdf"); [|rewrite app_nil_r; reflexivity].
  destruct (analyze_bank_statement client (path_join folder name)) as [lines data].
  reflexivity.
Qed.

Lemma all_data_from (client : string -> result AnalyzeResult)
  (folder : string) (listing : list string) (st : folder_state) :
  all_data (fold_left (process_file client folder) listing st)
  = all_data st ++ map (summary_of client folder) (filter is_pdf listing).
Proof.
  revert st; induction listing as [|name listing IH]; intros st; simpl.
  - rewrite app_nil_r. reflexivity.
  - rewrite IH, process_file_all_data, <- app_assoc.
    destruct (is_pdf name); reflexivity.
Qed.

(** X10: the summary table has one row per [.pdf] file, in the order of
    the listing, whether or not its analysis succeeded: as many rows as
    variance entries, and never fewer than discrepancies; each row
    carries the statement's balances and its number of transactions. *)
Theorem one_summary_row_per_statement (client : string -> result AnalyzeResult)
  (listing : list string) (input_folder : string) :
  let final := process_folder client listing input_folder in
  let data := statement_of client input_folder in
  all_data final
  = map (fun name =>
           {| row_file := name;
              row_starting_balance := data_starting_balance (data name);
              row_ending_balance := data_ending_balance (data name);
              row_transactions := Z.of_nat (List.length (data_transactions (data name))) |})
      (filter (fun name => Text.endswith name ".pdf") listing)
  /\ List.length (all_data final) = List.length (variances final)
  /\ (List.length (discrepancies final) <= List.length (all_data final))%nat.
Proof.
  intros final data. unfold final, process_folder.
  destruct (process_folder_from client input_folder listing empty_state) as [Hv Hd].
  rewrite all_data_from, Hv, Hd. simpl. rewrite !length_map.
  split; [reflexivity|]. split; [reflexivity|].
  apply filter_length_le.
Qed.

(** ** The JSON dictionary *)

Lemma dict_get_set_same {V : Type} (d : list (string * V)) (k : string) (v : V) :
  dict_get (dict_set d k v) k = Some v.
Proof.
  induction d as [|[k' v'] d IH]; simpl.
  - rewrite String.eqb_refl. reflexivity.
  - destruct (String.eqb k' k) eqn:E; simpl; rewrite E; [reflexivity | exact IH].
Qed.

Lemma dict_get_set_other {V : Type} (d : list (string * V)) (k k0 : string) (v : V) :
  String.eqb k k0 = false ->
  dict_get (dict_set d k v) k0 = dict_get d k0.
Proof.
  intros Hk. induction d as [|[k' v'] d IH]; simpl.
  - rewrite Hk. reflexivity.
  - destruct (String.eqb k' k) eqn:E; simpl.
    + apply String.eqb_eq in E. subst k'. rewrite Hk. reflexivity.
    + destruct (String.eqb k' k0); [reflexivity | exact IH].
Qed.

Lemma process_file_json (client : string -> result AnalyzeResult)
  (folder : string) (st : folder_state) (name : string) :
  output_json_data (process_file client folder st name)
  = if is_pdf name
    then dict_set (output_json_data st) name (statement_of client folder name)
    else output_json_data st.
Proof.
  unfold process_file, is_pdf, statement_of.
  destruct (Text.endswith name ".pdf"); [|reflexivity].
  destruct (analyze_bank_statement client (path_join folder name)) as [lines data].
  reflexivity.
Qed.

Lemma json_from (client : string -> result AnalyzeResult)
  (folder : string) (listing : list string) (st : folder_state) (k : string) :
  dict_get (output_json_data (fold_left (process_file client folder) listing st)) k
  = if is_pdf k && existsb (fun name => String.eqb name k) listing
    then Some (statement_of client folder k)
    else dict_get (output_json_data st) k.
Proof.
  revert st; induction listing as [|name listing IH]; intros st; simpl.
  - rewrite andb_false_r. reflexivity.
  - rewrite IH, process_file_json.
    destruct (String.eqb name k) eqn:E; simpl.
    + apply String.eqb_eq in E. subst name.
      destruct (is_pdf k); simpl; [|reflexivity].
      rewrite dict_get_set_same.
      destruct (existsb (fun name => String.eqb name k) listing); reflexivity.
    + destruct (is_pdf k && existsb (fun name => String.eqb name k) listing);
        [reflexivity|].
      destruct (is_pdf name); [apply dict_get_set_other; exact E | reflexivity].
Qed.

(** X11: in the dictionary written to [output.json], looking up a file
    name gives the statement analysed for it when the name ends in
    [.pdf] and occurs in the listing, and nothing otherwise. *)
Theorem json_lookup (client : string -> result AnalyzeResult)
  (listing : list string) (input_folder file_name : string) :
  dict_get (output_json_data (process_folder client listing input_folder)) file_name
  = if Text.endswith file_name ".pdf"
       && existsb (fun name => String.eqb name file_name) listing
    then Some (statement_of client input_folder file_name)
    else None.
Proof. unfold process_folder. apply json_from. Qed.

(** ** The discrepancy report *)

Lemma append_cancel (a b c : string) : (a ++ b = a ++ c)%string -> b = c.
Proof.
  induction a as [|x a IH]; simpl; intros H; [exact H|].
  apply IH. congruence.
Qed.

Lemma filter_nothing {A : Type} (p : A -> bool) (xs : list A) :
  (forall x, In x xs -> p x = false) -> filter p xs = [].
Proof.
  induction xs as [|x xs IH]; intros H; simpl; [reflexivity|].
  rewrite (H x (or_introl eq_refl)). apply IH.
  intros y Hy. apply H. right. exact Hy.
Qed.

Lemma report_of_some (d : discrepancy) (ds : list discrepancy) :
  discrepancy_report (d :: ds) <> discrepancy_report [].
Proof.
  unfold discrepancy_report. intros H. apply append_cancel in H.
  destruct ds; simpl in H; discriminate H.
Qed.

(** X12: the report reads "No discrepancies found in any statements."
    exactly when no [.pdf] statement of the listing has a variance of
    absolute value above 0.01; otherwise it lists a block per discrepant
    statement instead. *)
Theorem report_is_clean_iff_no_discrepancy (client : string -> result AnalyzeResult)
  (listing : list string) (input_folder : string) :
  discrepancy_report (discrepancies (process_folder client listing input_folder))
  = (report_header ++ no_discrepancies_line)%string
  <-> forall file_name,
        In file_name listing -> Text.endswith file_name ".pdf" = true ->
        PrimFloat.ltb tolerance
          (abs (Reconciliation.variance (statement_of client input_folder file_name)))
        = false.
Proof.
  destruct (process_folder_from client input_folder listing empty_state) as [_ Hd].
  unfold process_folder. rewrite Hd. simpl. split.
  - intros H name Hin Hpdf.
    destruct (filter _ (filter is_pdf listing)) as [|n ns] eqn:E.
    + destruct (PrimFloat.ltb tolerance _) eqn:K; [|reflexivity].
      assert (Hn : In name []).
      { rewrite <- E. apply filter_In. split; [apply in_pdfs; assumption | exact K]. }
      destruct Hn.
    + exfalso. simpl map in H. revert H. apply report_of_some.
  - intros H.
    replace (filter _ (filter is_pdf listing)) with (@nil string); [reflexivity|].
    symmetry. apply filter_nothing.
    intros name Hn. apply filter_In in Hn.
    destruct Hn as [Hn Hpdf]. apply (H name Hn Hpdf).
Qed.

(** ** The chart *)

Lemma below_zero_is_not_at_least (v : float) :
  PrimFloat.ltb v 0 = true -> PrimFloat.leb 0 v = false.
Proof.
  rewrite FloatAxioms.ltb_spec, FloatAxioms.leb_spec.
  change (Prim2SF 0) with (S754_zero false).
  destruct (Prim2SF v) as [s|s| |s m e]; try destruct s; simpl;
    try discriminate; reflexivity.
Qed.

Lemma nth_error_texts (vs : list float) (k : Z) (i : nat) :
  nth_error (texts_from k vs) i
  = option_map (text_of (k + Z.of_nat i)) (nth_error vs i).
Proof.
  revert k i; induction vs as [|v vs IH]; intros k i.
  - destruct i; reflexivity.
  - destruct i as [|i]; simpl.
    + rewrite Z.add_0_r. reflexivity.
    + rewrite IH. replace (k + 1 + Z.of_nat i) with (k + Z.pos (Pos.of_succ_nat i)) by lia.
      reflexivity.
Qed.

(** X13: in the chart, the bar and the label of the [i]-th variance go
    together: the bar is red exactly when the variance is below zero,
    a red bar has its label anchored at the top, 0.1 below the value,
    and a label anchored at the bottom, 0.1 above the value, belongs to
    a green bar. *)
Theorem chart_colors_match_labels (variances : list variance_entry) (i : nat)
  (entry : variance_entry) :
  nth_error variances i = Some entry ->
  let v := variance_value entry in
  exists b t,
    nth_error (fst (plot_variance_graph variances)) i = Some b
    /\ nth_error (snd (plot_variance_graph variances)) i = Some t
    /\ bar_height b = v
    /\ text_x t = Z.of_nat i
    /\ (bar_color b = "#ff6b6b" <-> PrimFloat.ltb v 0 = true)
    /\ (bar_color b = "#ff6b6b" ->
        text_va t = "top" /\ text_y t = (v + - label_gap)%float)
    /\ (text_va t = "bottom" ->
        bar_color b = "#4ecdc4" /\ text_y t = (v + label_gap)%float).
Proof.
  intros Hi v. exists (bar_of entry), (text_of (Z.of_nat i) v).
  unfold plot_variance_graph. simpl fst. simpl snd.
  rewrite nth_error_map, Hi, nth_error_texts, nth_error_map, Hi. simpl.
  split; [reflexivity|]. split; [reflexivity|]. split; [reflexivity|].
  split; [reflexivity|]. fold v. unfold color_of.
  destruct (PrimFloat.ltb v 0) eqn:L.
  - rewrite (below_zero_is_not_at_least v L).
    split; [split; reflexivity|]. split; [split; reflexivity | discriminate].
  - split; [split; discriminate|]. split; [discriminate|].
    destruct (PrimFloat.leb 0 v); [split; reflexivity | discriminate].
Qed.

Lemma chart_colors_match_labels_witness :
  exists b t,
    nth_error (fst (plot_variance_graph
                      [{| variance_file := "a.pdf"; variance_value := (-250)%float |}]))
      0 = Some b
    /\ nth_error (snd (plot_variance_graph
                         [{| variance_file := "a.pdf"; variance_value := (-250)%float |}]))
         0 = Some t
    /\ bar_color b = "#ff6b6b" /\ text_va t = "top".
Proof.
  destruct (chart_colors_match_labels
              [{| variance_file := "a.pdf"; variance_value := (-250)%float |}] 0
              {| variance_file := "a.pdf"; variance_value := (-250)%float |} eq_refl)
    as (b & t & Hb & Ht & _ & _ & Hred & Htop & _).
  exists b, t. split; [exact Hb|]. split; [exact Ht|].
  assert (R : bar_color b = "#ff6b6b") by (apply Hred; reflexivity).
  split; [exact R|]. apply Htop. exact R.
Defined.

Lemma prefix_head_differs (a c : ascii) (s1 s2 : string) :
  a <> c -> String.prefix (String a s1) (String c s2) = false.
Proof.
  intros H.
  change (String.prefix (String a s1) (String c s2))
    with (match ascii_dec a c with
          | left _ => String.prefix s1 s2
          | right _ => false
          end).
  destruct (ascii_dec a c) as [E|_]; [contradiction | reflexivity].
Qed.

Lemma without_pdf_stem (stem : string) :
  ~ In "."%char (list_ascii_of_string stem) ->
  without_pdf (stem ++ ".pdf")%string = stem.
Proof.
  unfold without_pdf. induction stem as [|c stem IH]; intros H; [reflexivity|].
  change (drop_occurrences ".pdf" 0 (String c stem ++ ".pdf"))
    with (if String.prefix ".pdf" (String c (stem ++ ".pdf"))
          then drop_occurrences ".pdf" 3 (stem ++ ".pdf")
          else String c (drop_occurrences ".pdf" 0 (stem ++ ".pdf"))).
  rewrite prefix_head_differs.
  - f_equal. apply IH. intros K. apply H. right. exact K.
  - intros E. apply H. left. symmetry. exact E.
Qed.

(** X14: the chart labels a bar with the file name without [.pdf]: for
    a file [stem.pdf] whose stem holds no dot the label is the stem. *)
Theorem chart_label_is_the_stem (variances : list variance_entry) (i : nat)
  (stem : string) (v : float) :
  nth_error variances i = Some {| variance_file := stem ++ ".pdf"; variance_value := v |} ->
  ~ In "."%char (list_ascii_of_string stem) ->
  exists b, nth_error (fst (plot_variance_graph variances)) i = Some b
            /\ bar_label b = stem /\ bar_height b = v.
Proof.
  intros Hi Hstem. eexists. unfold plot_variance_graph. simpl fst.
  rewrite nth_error_map, Hi. simpl. split; [reflexivity|].
  split; [apply without_pdf_stem; exact Hstem | reflexivity].
Qed.

Lemma chart_label_is_the_stem_witness :
  exists b,
    nth_error (fst (plot_variance_graph
                      [{| variance_file := "march.pdf"; variance_value := 50%float |}]))
      0 = Some b
    /\ bar_label b = "march" /\ bar_height b = 50%float.
Proof.
  apply (chart_label_is_the_stem
           [{| variance_file := "march.pdf"; variance_value := 50%float |}] 0
           "march" 50%float eq_refl).
  simpl. intros H. repeat (destruct H as [H|H]; [discriminate H|]). exact H.
Defined.

(** ** The error line *)

Lemma no_error_among_warnings (file_path : string) (r : AnalyzeResult) (e : exn) :
  ~ In (error_line file_path e)
       (("Analyzing document: " ++ file_path)%string :: warnings_of file_path r).
Proof.
  unfold warnings_of, error_line, starting_warning, ending_warning.
  intros [H|H]; [discriminate H|].
  apply in_app_or in H.
  destruct H as [H|H];
    [destruct (is_none (resolved Starting r)) | destruct (is_none (resolved Ending r))];
    simpl in H; try (destruct H as [H|H]; [discriminate H|]); exact H.
Qed.

(** X15: the line "Error processing ..." is printed exactly when the
    document service raised: once the service has delivered a document,
    the three passes, the defaults and the extraction finish without an
    exception, and the zero-balance fallback is not used. *)
Theorem error_line_iff_service_failed (client : string -> result AnalyzeResult)
  (file_path : string) :
  (exists e, In (error_line file_path e)
               (fst (analyze_bank_statement client file_path)))
  <-> exists e, client file_path = Raise e.
Proof.
  destruct (client file_path) as [r|e] eqn:E; split.
  - intros (e & H). rewrite (analyze_bank_statement_ok client file_path r E) in H.
    exfalso. exact (no_error_among_warnings file_path r e H).
  - intros (e & H). discriminate H.
  - intros _. exists e. reflexivity.
  - intros _. exists e. rewrite (statement_after_failure client file_path e E).
    right. left. reflexivity.
Qed.

(** ** The number of transactions *)

Lemma length_flat_map_sum {A B : Type} (g : A -> list B) (xs : list A) :
  List.length (flat_map g xs) = list_sum (map (fun x => List.length (g x)) xs).
Proof.
  induction xs as [|x xs IH]; simpl; [reflexivity|].
  rewrite length_app, IH. reflexivity.
Qed.

Lemma length_emitted (t : DocumentTable) (cs : list DocumentTableCell) :
  List.length (flat_map (emitted t) cs)
  = List.length (filter (counts_as_transaction t) cs).
Proof.
  induction cs as [|c cs IH]; simpl; [reflexivity|].
  rewrite length_app, IH. unfold emitted, counts_as_transaction.
  destruct (_ && _); reflexivity.
Qed.

(** X16: the number of transactions of a document, which is what the
    summary table shows, is the number of cells that lie below row 0 in
    a row of three cells or more, summed over the tables: a row is
    counted once for each of its cells. *)
Theorem transaction_count (r : AnalyzeResult) (transactions : list transaction) :
  extract_transactions r = Ok transactions ->
  List.length transactions
  = list_sum
      (map (fun t =>
              List.length
                (filter (fun c =>
                           (row_index c >? 0)
                           && (3 <=? Z.of_nat
                                       (List.length
                                          (filter (fun c' => row_index c' =? row_index c)
                                             (cells t)))))
                   (cells t)))
         (tables r)).
Proof.
  rewrite extract_transactions_ok. intros E.
  apply (f_equal (fun o => match o with
                           | Ok l => List.length l
                           | Raise _ => O
                           end)) in E.
  simpl in E. rewrite <- E. unfold all_emitted.
  rewrite length_flat_map_sum. f_equal. apply map_ext. intros t.
  rewrite length_emitted. unfold counts_as_transaction, row_of, in_row.
  rewrite (filter_ext _ (fun c =>
     (row_index c >? 0)
     && (3 <=? Z.of_nat (List.length
                           (filter (fun c' => row_index c' =? row_index c) (cells t))))));
    [reflexivity|].
  intros c. rewrite length_map. reflexivity.
Qed.

Lemma transaction_count_witness :
  List.length
    (repeat {| Date := "01/05"; Description := "Withdrawal";
               Amount := (-50)%float; Direction := Debit |} 3) = 3%nat.
Proof.
  rewrite (transaction_count withdrawal_statement
             (repeat {| Date := "01/05"; Description := "Withdrawal";
                        Amount := (-50)%float; Direction := Debit |} 3) eq_refl).
  reflexivity.
Defined.

Lemma report_is_clean_iff_no_discrepancy_witness :
  discrepancy_report
    (discrepancies (process_folder failing_client ["a.pdf"; "bad.pdf"] "in"))
  = (report_header ++ no_discrepancies_line)%string.
Proof.
  apply (proj2 (report_is_clean_iff_no_discrepancy failing_client
                  ["a.pdf"; "bad.pdf"] "in")).
  intros file_name [<-|[<-|[]]] _; reflexivity.
Defined.

Lemma error_line_iff_service_failed_witness :
  exists e, In (error_line "in/bad.pdf" e)
              (fst (analyze_bank_statement failing_client "in/bad.pdf")).
Proof.
  apply (proj2 (error_line_iff_service_failed failing_client "in/bad.pdf")).
  exists ServiceError. reflexivity.
Defined.
